(** * A shallow embedding of the Flask demonstration service [app.py]

    The service keeps one process-wide dictionary [data_store] with a visit
    counter and two lists (users, messages) and exposes it through a handful
    of routes.  The embedding follows the Python source function by function:

    - a Python [str] is a sequence of code points ([PyStr.str]);
    - Python values that come out of [request.get_json()] are modelled by the
      inductive type [json]; the few Python operations the handlers apply to
      them ([not x], [k in x], [x[k]], [x.get(k, d)], [x[0]], [x.lower()],
      [x.upper()]) are written out with the exception each one raises;
    - [data_store] is the record [store]; every view function is a
      computation in a small state-and-exception monad [M], so that a
      mutation made before an exception is kept, as in Python;
    - [handle_request] is the request cycle of the framework around the
      views: the [before_request] hook, route and method dispatch, the error
      handlers and the [after_request] hook.

    What the module gets from the interpreter and its libraries is a
    parameter of the embedding, the record [runtime]:

    - [str.lower] and [str.upper], of which only two facts are used: on
      strings of ASCII characters [str.lower] is the ASCII map, and it
      yields the empty string for the empty string only;
    - the template engine behind [render_template_string]: a page is the
      constructor of [page] that names the template source together with
      the values the view splices into it, each computed as the view
      computes it; the engine either produces the text of the page or
      raises, and it is taken not to write [data_store].  A template source
      into which only integers are spliced contains no template syntax and
      is rendered by every engine.

    The request is given by what the views read from it: the method, the
    rule the URL map resolved the path to, the [X-API-Key] header, what
    [get_json()] does, the [q] argument and the two clock readings. *)

From Stdlib Require Import ZArith NArith QArith List String Ascii Bool Lia FinFun.
Import ListNotations.
Local Open Scope Z_scope.
Local Open Scope list_scope.

Set Warnings "-register-all".

(* ------------------------------------------------------------------ *)
(** ** Python strings *)
(* ------------------------------------------------------------------ *)

Module PyStr.

(** A [str]: its code points, in order. *)
Inductive str : Type := Str (codepoints : list N).

Definition codepoints (s : str) : list N :=
  match s with Str l => l end.

(** String literals stand for strings of ASCII characters; a literal with a
    byte above 127 is refused. *)
Definition of_bytes (l : list Byte.byte) : option str :=
  if forallb (fun b => Nat.ltb (Byte.to_nat b) 128) l
  then Some (Str (map (fun b => N.of_nat (Byte.to_nat b)) l))
  else None.

Fixpoint bytes_of (l : list N) : option (list Byte.byte) :=
  match l with
  | [] => Some []
  | c :: l' =>
      match (if N.ltb c 128 then Byte.of_nat (N.to_nat c) else None), bytes_of l' with
      | Some b, Some bs => Some (b :: bs)
      | _, _ => None
      end
  end.

Definition to_bytes (s : str) : option (list Byte.byte) := bytes_of (codepoints s).

Fixpoint list_eqb (a b : list N) : bool :=
  match a, b with
  | [], [] => true
  | x :: a', y :: b' => N.eqb x y && list_eqb a' b'
  | _, _ => false
  end.

(** [a == b] *)
Definition eqb (a b : str) : bool := list_eqb (codepoints a) (codepoints b).

(** [a + b] *)
Definition append (a b : str) : str := Str (codepoints a ++ codepoints b).

Fixpoint list_prefix (p s : list N) : bool :=
  match p, s with
  | [], _ => true
  | x :: p', y :: s' => N.eqb x y && list_prefix p' s'
  | _ :: _, [] => false
  end.

Fixpoint list_contains (q s : list N) : bool :=
  if list_prefix q s then true
  else match s with
       | [] => false
       | _ :: s' => list_contains q s'
       end.

(** [q in s] for two strings: [q] occurs in [s] at some position. *)
Definition contains (q s : str) : bool := list_contains (codepoints q) (codepoints s).

(** [s[:n]] *)
Definition slice_to (n : nat) (s : str) : str := Str (firstn n (codepoints s)).

(** [s.replace(a, b)] for one-character [a] and [b]. *)
Definition replace_char (a b : N) (s : str) : str :=
  Str (map (fun c => if N.eqb c a then b else c) (codepoints s)).

(** The truth value of a string: [not s] holds exactly for the empty one. *)
Definition nonempty (s : str) : bool :=
  match codepoints s with [] => false | _ :: _ => true end.

(** The mathematical reading of [contains]. *)
Definition occurs_in (q s : str) : Prop :=
  exists pre post, codepoints s = pre ++ codepoints q ++ post.

(** Every character is an ASCII one. *)
Definition is_ascii (s : str) : bool := forallb (fun c => N.ltb c 128) (codepoints s).

(** The case maps on the ASCII letters. *)
Definition ascii_lower_char (c : N) : N :=
  if andb (N.leb 65 c) (N.leb c 90) then (c + 32)%N else c.

Definition ascii_upper_char (c : N) : N :=
  if andb (N.leb 97 c) (N.leb c 122) then (c - 32)%N else c.

Definition ascii_lower (s : str) : str := Str (map ascii_lower_char (codepoints s)).

Definition ascii_upper (s : str) : str := Str (map ascii_upper_char (codepoints s)).

End PyStr.

Abbreviation str := PyStr.str.
Abbreviation Str := PyStr.Str.

Declare Scope py_str_scope.
Delimit Scope py_str_scope with py_str.
String Notation PyStr.str PyStr.of_bytes PyStr.to_bytes : py_str_scope.
Local Open Scope py_str_scope.

(* ------------------------------------------------------------------ *)
(** ** Exceptions and the values decoded from a JSON body *)
(* ------------------------------------------------------------------ *)

(** The HTTP errors [request.get_json()] aborts a request with. *)
Inductive http_error : Type :=
| UnsupportedMediaType   (* no JSON content type *)
| BadRequest.            (* a body that does not parse *)

Definition http_code (e : http_error) : Z :=
  match e with
  | UnsupportedMediaType => 415
  | BadRequest => 400
  end.

Inductive exn : Type :=
| TypeError
| AttributeError
| IndexError
| KeyError
| TemplateError                    (* raised by the template engine *)
| HTTPException (e : http_error).

Inductive result (A : Type) : Type :=
| Ok (a : A)
| Raise (e : exn).

Arguments Ok {A} a.
Arguments Raise {A} e.

Definition rbind {A B} (r : result A) (k : A -> result B) : result B :=
  match r with
  | Ok a => k a
  | Raise e => Raise e
  end.

(** What [json.loads] produces: [None], [bool], [int], [float], [str],
    [list] and [dict] with string keys.  A [dict] is kept as an association
    list read at the first binding of a key. *)
Inductive json : Type :=
| JNull
| JBool (b : bool)
| JInt (z : Z)
| JFloat (q : Q)
| JStr (s : str)
| JArr (l : list json)
| JObj (kv : list (str * json)).

(** What [request.get_json()] does for a request: it returns the decoded
    body ([None], that is [JNull], for the body [null], and also for a
    request without a JSON body on the framework versions that return
    [None] there), or it aborts the request (415 without a JSON content
    type on the current versions, 400 for a body that does not parse). *)
Inductive json_outcome : Type :=
| Returns (data : json)
| Aborts (e : http_error).

(* ------------------------------------------------------------------ *)
(** ** Pages *)
(* ------------------------------------------------------------------ *)

Record user_card : Type := mkUserCard {
  uc_avatar : str;
  uc_name : json;
  uc_email : json;
  uc_id : Z;
  uc_date : str
}.

Record message_card : Type := mkMessageCard {
  mc_avatar : str;
  mc_author : json;
  mc_date : str;
  mc_content : json
}.

Record result_card : Type := mkResultCard {
  rc_avatar : str;
  rc_name : json;
  rc_email : json
}.

(** One constructor per template source, with the values spliced into it.
    A card list that is empty stands for the source's empty-state branch. *)
Inductive page : Type :=
| HomePage (nvisits nusers nmessages : Z)
| HealthPage (timestamp environment : str)
| StatsPage (nusers nmessages nvisits : Z) (time environment : str)
| UsersPage (total : Z) (cards : list user_card)
| UserNotFoundPage (user_id : Z)
| UserDetailPage (avatar name email : str) (id : Z) (created : str)
| MessagesPage (total : Z) (cards : list message_card)
| SearchPromptPage
| SearchResultsPage (query : str) (found : Z) (cards : list result_card).

(** The template sources into which nothing but integers is spliced. *)
Definition plain (p : page) : bool :=
  match p with
  | HomePage _ _ _ | UserNotFoundPage _ | SearchPromptPage => true
  | UsersPage _ [] | MessagesPage _ [] => true
  | _ => false
  end.

Inductive body : Type :=
| Json (j : json)      (* jsonify(...) *)
| Html (p : page)      (* the text the engine produced from the source [p] *)
| Default.             (* a response the framework writes itself *)

(* ------------------------------------------------------------------ *)
(** ** The interpreter and the libraries *)
(* ------------------------------------------------------------------ *)

Record runtime : Type := mkRuntime {
  str_lower : str -> str;    (* s.lower() *)
  str_upper : str -> str;    (* s.upper() *)
  renders : page -> bool;    (* the engine produces the text of this source *)
  lower_ascii : forall s, PyStr.is_ascii s = true -> str_lower s = PyStr.ascii_lower s;
  lower_empty : forall s, str_lower s = "" -> s = ""
}.

(** [render_template_string(html)] *)
Definition render_template_string (rt : runtime) (p : page) : result body :=
  if plain p || renders rt p then Ok (Html p) else Raise TemplateError.

(* ------------------------------------------------------------------ *)
(** ** Operations on decoded values *)
(* ------------------------------------------------------------------ *)

Module Py.

Definition is_nil {A} (l : list A) : bool :=
  match l with [] => true | _ :: _ => false end.

(** Truth value testing, as in [if not data]. *)
Definition truthy (j : json) : bool :=
  match j with
  | JNull => false
  | JBool b => b
  | JInt z => negb (z =? 0)
  | JFloat q => negb (Qeq_bool q 0)
  | JStr s => PyStr.nonempty s
  | JArr l => negb (is_nil l)
  | JObj kv => negb (is_nil kv)
  end.

Fixpoint lookup (k : str) (kv : list (str * json)) : option json :=
  match kv with
  | [] => None
  | (k', v) :: kv' => if PyStr.eqb k' k then Some v else lookup k kv'
  end.

Definition is_str_eq (k : str) (j : json) : bool :=
  match j with
  | JStr s => PyStr.eqb s k
  | _ => false
  end.

(** [k in x] for a string [k]: key membership on a dict, element membership
    on a list, substring on a string, [TypeError] on anything else. *)
Definition contains (k : str) (x : json) : result bool :=
  match x with
  | JObj kv => Ok (match lookup k kv with Some _ => true | None => false end)
  | JArr l => Ok (existsb (is_str_eq k) l)
  | JStr s => Ok (PyStr.contains k s)
  | JNull | JBool _ | JInt _ | JFloat _ => Raise TypeError
  end.

(** [x[k]] for a string [k]. *)
Definition getitem (x : json) (k : str) : result json :=
  match x with
  | JObj kv => match lookup k kv with Some v => Ok v | None => Raise KeyError end
  | _ => Raise TypeError
  end.

(** [x.get(k, d)] *)
Definition get (x : json) (k : str) (d : json) : result json :=
  match x with
  | JObj kv => Ok (match lookup k kv with Some v => v | None => d end)
  | _ => Raise AttributeError
  end.

(** [x[0]] *)
Definition first (x : json) : result json :=
  match x with
  | JStr (Str []) => Raise IndexError
  | JStr (Str (c :: _)) => Ok (JStr (Str [c]))
  | JArr [] => Raise IndexError
  | JArr (v :: _) => Ok v
  | JObj _ => Raise KeyError
  | JNull | JBool _ | JInt _ | JFloat _ => Raise TypeError
  end.

(** [x.upper()] and [x.lower()] exist on strings only. *)
Definition upper (rt : runtime) (x : json) : result str :=
  match x with
  | JStr s => Ok (str_upper rt s)
  | _ => Raise AttributeError
  end.

Definition lower (rt : runtime) (x : json) : result str :=
  match x with
  | JStr s => Ok (str_lower rt s)
  | _ => Raise AttributeError
  end.

(** The right operand of [str + x]: a string or [TypeError]. *)
Definition as_str (x : json) : result str :=
  match x with
  | JStr s => Ok s
  | _ => Raise TypeError
  end.

(** [len(l)] as a Python integer. *)
Definition len {A} (l : list A) : Z := Z.of_nat (List.length l).

End Py.

(* ------------------------------------------------------------------ *)
(** ** The store, requests and responses *)
(* ------------------------------------------------------------------ *)

(** The dictionaries built by the two creating handlers. *)
Record user : Type := mkUser {
  u_id : Z;
  u_name : json;
  u_email : json;
  u_created_at : str
}.

Record message : Type := mkMessage {
  m_id : Z;
  m_content : json;
  m_author : json;
  m_created_at : str
}.

(** [data_store]: the keys ['visits'], ['users'] and ['messages']. *)
Record store : Type := mkStore {
  ds_visits : Z;
  ds_users : list user;
  ds_messages : list message
}.

Definition data_store : store := mkStore 0 [] [].

Inductive http_method : Type := GET | POST | DELETE | HEAD | OPTIONS | PUT | PATCH.

(** The rule the URL map resolves [request.path] to; [NoRoute] when no rule
    matches.  The converter [<int:user_id>] hands the view an integer. *)
Inductive route : Type :=
| Home
| Health
| Stats
| Users
| UserDetail (user_id : Z)
| Messages
| Search
| NoRoute.

(** What the views read from the [request] proxy and from the clock. *)
Record request : Type := mkRequest {
  method : http_method;
  target : route;
  x_api_key : option str;     (* request.headers.get('X-API-Key') *)
  get_json : json_outcome;    (* request.get_json() *)
  arg_q : option str;         (* request.args.get('q') *)
  utcnow : str;               (* datetime.utcnow().isoformat() *)
  utcnow_strftime : str       (* datetime.utcnow().strftime('%Y-%m-%d %H:%M:%S') *)
}.

(** [os.environ], the two variables the views read. *)
Record environ : Type := mkEnviron {
  API_KEY : option str;
  ENVIRONMENT : option str
}.

Definition environ_get (v : option str) (default : str) : str :=
  match v with Some s => s | None => default end.

(** What a view returns: a body and a status code. *)
Definition reply : Type := (body * Z)%type.

Record response : Type := mkResponse {
  status : Z;
  content : body;
  headers : list (str * str)
}.

(* ------------------------------------------------------------------ *)
(** ** The monad of the views: state that survives an exception *)
(* ------------------------------------------------------------------ *)

Definition M (A : Type) : Type := store -> result A * store.

Definition ret {A} (a : A) : M A := fun st => (Ok a, st).

Definition bind {A B} (c : M A) (k : A -> M B) : M B :=
  fun st =>
    match c st with
    | (Ok a, st') => k a st'
    | (Raise e, st') => (Raise e, st')
    end.

Definition lift {A} (r : result A) : M A := fun st => (r, st).

Definition read : M store := fun st => (Ok st, st).

Definition write (st' : store) : M unit := fun _ => (Ok tt, st').

Declare Scope py_scope.
Delimit Scope py_scope with py.
Notation "x <- c ;; k" := (bind c (fun x => k))
  (at level 61, c at next level, right associativity) : py_scope.
Notation "c ;;; k" := (bind c (fun _ => k))
  (at level 61, right associativity) : py_scope.
Notation "x <~ r ;; k" := (rbind r (fun x => k))
  (at level 61, r at next level, right associativity) : py_scope.
Local Open Scope py_scope.

(** A list comprehension whose element expression may raise: the first
    exception ends the comprehension. *)
Fixpoint comprehension {A B} (f : A -> result B) (l : list A) : result (list B) :=
  match l with
  | [] => Ok []
  | a :: l' => b <~ f a ;; bs <~ comprehension f l' ;; Ok (b :: bs)
  end.

(** A list comprehension with an [if] clause that may raise. *)
Fixpoint comprehension_if {A} (p : A -> result bool) (l : list A) : result (list A) :=
  match l with
  | [] => Ok []
  | a :: l' =>
      b <~ p a ;; rest <~ comprehension_if p l' ;;
      Ok (if b then a :: rest else rest)
  end.

(* ------------------------------------------------------------------ *)
(** ** Hooks, error handlers and the key check *)
(* ------------------------------------------------------------------ *)

(** [log_request]: the [before_request] hook. *)
Definition log_request : M unit :=
  fun st => (Ok tt, mkStore (ds_visits st + 1) (ds_users st) (ds_messages st)).

(** Header names are compared in lower case. *)
Definition same_header (rt : runtime) (k k' : str) : bool :=
  PyStr.eqb (str_lower rt k') (str_lower rt k).

(** [response.headers[k] = v]: the first entry under the name is replaced,
    the later ones are dropped; without one the entry is added at the end. *)
Fixpoint set_header (rt : runtime) (k v : str) (h : list (str * str)) : list (str * str) :=
  match h with
  | [] => [(k, v)]
  | (k', v') :: h' =>
      if same_header rt k k'
      then (k, v) :: filter (fun e => negb (same_header rt k (fst e))) h'
      else (k', v') :: set_header rt k v h'
  end.

(** [add_security_headers]: the [after_request] hook. *)
Definition add_security_headers (rt : runtime) (r : response) : response :=
  let h := headers r in
  let h := set_header rt "X-Content-Type-Options" "nosniff" h in
  let h := set_header rt "X-Frame-Options" "DENY" h in
  let h := set_header rt "X-XSS-Protection" "1; mode=block" h in
  let h := set_header rt "Access-Control-Allow-Origin" "*" h in
  let h := set_header rt "Access-Control-Allow-Methods" "GET, POST, PUT, DELETE, OPTIONS" h in
  let h := set_header rt "Access-Control-Allow-Headers" "Content-Type, X-API-Key" h in
  mkResponse (status r) (content r) h.

Definition not_found : reply :=
  (Json (JObj [("error", JStr "Resource not found"); ("status", JInt 404)]), 404).

Definition internal_error : reply :=
  (Json (JObj [("error", JStr "Internal server error"); ("status", JInt 500)]), 500).

(** [api_key != valid_key], where [api_key] is [None] without the header. *)
Definition key_differs (api_key : option str) (valid_key : str) : bool :=
  match api_key with
  | Some k => negb (PyStr.eqb k valid_key)
  | None => true
  end.

Definition view : Type := request -> M (option reply).

(** [require_api_key]: the decorator.  The wrapped view [f] is called only
    on the last line. *)
Definition require_api_key (env : environ) (f : view) : view :=
  fun req =>
    let api_key := x_api_key req in
    let valid_key := environ_get (API_KEY env) "demo-api-key" in
    if key_differs api_key valid_key
    then ret (Some (Json (JObj [("error", JStr "Invalid or missing API key")]), 401))
    else f req.

(* ------------------------------------------------------------------ *)
(** ** The views *)
(* ------------------------------------------------------------------ *)

Definition user_json (u : user) : json :=
  JObj [("id", JInt (u_id u)); ("name", u_name u); ("email", u_email u);
        ("created_at", JStr (u_created_at u))].

Definition message_json (m : message) : json :=
  JObj [("id", JInt (m_id m)); ("content", m_content m); ("author", m_author m);
        ("created_at", JStr (m_created_at m))].

(** [x[0].upper()], the avatar letter of a card. *)
Definition initial (rt : runtime) (x : json) : result str :=
  c <~ Py.first x ;; Py.upper rt c.

(** [s[:19].replace('T', ' ')]; 84 and 32 are the letter T and the space. *)
Definition shown_time (s : str) : str :=
  PyStr.replace_char 84 32 (PyStr.slice_to 19 s).

Definition render_user_card (rt : runtime) (u : user) : result user_card :=
  a <~ initial rt (u_name u) ;;
  Ok (mkUserCard a (u_name u) (u_email u) (u_id u) (PyStr.slice_to 10 (u_created_at u))).

Definition render_message_card (rt : runtime) (m : message) : result message_card :=
  a <~ initial rt (m_author m) ;;
  Ok (mkMessageCard a (m_author m) (shown_time (m_created_at m)) (m_content m)).

Definition render_result_card (rt : runtime) (u : user) : result result_card :=
  a <~ initial rt (u_name u) ;;
  Ok (mkResultCard a (u_name u) (u_email u)).

(** [return render_template_string(html)], with the status given or 200. *)
Definition respond (rt : runtime) (p : page) (code : Z) : M (option reply) :=
  b <- lift (render_template_string rt p) ;; ret (Some (b, code)).

(** [request.get_json()] inside a view: the decoded body, or the abort. *)
Definition request_get_json (req : request) : result json :=
  match get_json req with
  | Returns data => Ok data
  | Aborts e => Raise (HTTPException e)
  end.

Definition home (rt : runtime) : view :=
  fun _ =>
    st <- read ;;
    respond rt (HomePage (ds_visits st) (Py.len (ds_users st))
                         (Py.len (ds_messages st))) 200.

Definition health_check (rt : runtime) (env : environ) : view :=
  fun req =>
    respond rt (HealthPage (utcnow req)
                           (environ_get (ENVIRONMENT env) "development")) 200.

Definition get_stats (rt : runtime) (env : environ) : view :=
  fun req =>
    st <- read ;;
    respond rt (StatsPage (Py.len (ds_users st)) (Py.len (ds_messages st))
                          (ds_visits st) (utcnow_strftime req)
                          (environ_get (ENVIRONMENT env) "development")) 200.

(** [k1 not in data or k2 not in data ...], left to right with
    short-circuit evaluation. *)
Fixpoint missing_any (data : json) (keys : list str) : result bool :=
  match keys with
  | [] => Ok false
  | k :: keys' =>
      b <~ Py.contains k data ;;
      if negb b then Ok true else missing_any data keys'
  end.

(** [not data or k1 not in data or ...] *)
Definition invalid (data : json) (keys : list str) : result bool :=
  if negb (Py.truthy data) then Ok true else missing_any data keys.

Definition users (rt : runtime) : view :=
  fun req =>
    match method req with
    | GET =>
        st <- read ;;
        cards <- lift (comprehension (render_user_card rt) (ds_users st)) ;;
        respond rt (UsersPage (Py.len (ds_users st)) cards) 200
    | POST =>
        data <- lift (request_get_json req) ;;
        bad <- lift (invalid data ["name"; "email"]) ;;
        if bad
        then ret (Some (Json (JObj [("error", JStr "Name and email are required")]), 400))
        else
          st <- read ;;
          name <- lift (Py.getitem data "name") ;;
          email <- lift (Py.getitem data "email") ;;
          let user := mkUser (Py.len (ds_users st) + 1) name email (utcnow req) in
          write (mkStore (ds_visits st) (ds_users st ++ [user]) (ds_messages st)) ;;;
          ret (Some (Json (JObj [("message", JStr "User created successfully");
                                 ("user", user_json user)]), 201))
    | _ => ret None
    end.

Definition user_detail (rt : runtime) (user_id : Z) : view :=
  fun req =>
    st <- read ;;
    match find (fun u => u_id u =? user_id) (ds_users st) with
    | None => respond rt (UserNotFoundPage user_id) 404
    | Some user =>
        match method req with
        | GET =>
            a <- lift (initial rt (u_name user)) ;;
            name <- lift (Py.as_str (u_name user)) ;;
            email <- lift (Py.as_str (u_email user)) ;;
            respond rt (UserDetailPage a name email (u_id user)
                                       (shown_time (u_created_at user))) 200
        | DELETE =>
            write (mkStore (ds_visits st)
                           (filter (fun u => negb (u_id u =? user_id)) (ds_users st))
                           (ds_messages st)) ;;;
            ret (Some (Json (JObj [("message", JStr "User deleted successfully")]), 200))
        | _ => ret None
        end
    end.

(** The function under the decorator. *)
Definition messages_view (rt : runtime) : view :=
  fun req =>
    match method req with
    | GET =>
        st <- read ;;
        cards <- lift (comprehension (render_message_card rt) (rev (ds_messages st))) ;;
        respond rt (MessagesPage (Py.len (ds_messages st)) cards) 200
    | POST =>
        data <- lift (request_get_json req) ;;
        bad <- lift (invalid data ["content"]) ;;
        if bad
        then ret (Some (Json (JObj [("error", JStr "Content is required")]), 400))
        else
          st <- read ;;
          content <- lift (Py.getitem data "content") ;;
          author <- lift (Py.get data "author" (JStr "Anonymous")) ;;
          let message := mkMessage (Py.len (ds_messages st) + 1) content author (utcnow req) in
          write (mkStore (ds_visits st) (ds_users st) (ds_messages st ++ [message])) ;;;
          ret (Some (Json (JObj [("message", JStr "Message posted successfully");
                                 ("data", message_json message)]), 201))
    | _ => ret None
    end.

Definition messages (rt : runtime) (env : environ) : view :=
  require_api_key env (messages_view rt).

Definition name_matches (rt : runtime) (query : str) (u : user) : result bool :=
  l <~ Py.lower rt (u_name u) ;; Ok (PyStr.contains query l).

Definition search (rt : runtime) : view :=
  fun req =>
    let query := str_lower rt (match arg_q req with Some q => q | None => "" end) in
    if negb (PyStr.nonempty query)
    then respond rt SearchPromptPage 200
    else
      st <- read ;;
      results <- lift (comprehension_if (name_matches rt query) (ds_users st)) ;;
      cards <- lift (comprehension (render_result_card rt) results) ;;
      respond rt (SearchResultsPage query (Py.len results) cards) 200.

(* ------------------------------------------------------------------ *)
(** ** The request cycle *)
(* ------------------------------------------------------------------ *)

(** The methods of each rule: those of its [@app.route] line, to which the
    URL map adds [HEAD] (for a rule with [GET]) and [OPTIONS]. *)
Definition allowed (r : route) (m : http_method) : bool :=
  match r, m with
  | NoRoute, _ => false
  | _, (GET | HEAD | OPTIONS) => true
  | (Users | Messages), POST => true
  | UserDetail _, DELETE => true
  | _, _ => false
  end.

Definition view_of (rt : runtime) (env : environ) (r : route) : view :=
  match r with
  | Home => home rt
  | Health => health_check rt env
  | Stats => get_stats rt env
  | Users => users rt
  | UserDetail user_id => user_detail rt user_id
  | Messages => messages rt env
  | Search => search rt
  | NoRoute => fun _ => ret None
  end.

(** What the framework makes of an exception that leaves a view: an HTTP
    error is sent with its own code; anything else goes to
    [internal_error]. *)
Definition handle_exception (e : exn) : reply :=
  match e with
  | HTTPException h => (Default, http_code h)
  | _ => internal_error
  end.

(** Route and method dispatch, the call of the view, and the error
    handlers: an unmatched path goes to [not_found]; a method outside the
    rule is answered by the framework (405); [OPTIONS] is answered by the
    framework without calling the view; a view that ends without [return]
    goes to [internal_error]. *)
Definition dispatch_request (rt : runtime) (env : environ) (req : request)
  : store -> reply * store :=
  fun st =>
    match target req with
    | NoRoute => (not_found, st)
    | r =>
        if negb (allowed r (method req)) then ((Default, 405), st)
        else match method req with
             | OPTIONS => ((Default, 200), st)
             | _ =>
                 match view_of rt env r req st with
                 | (Ok (Some rep), st') => (rep, st')
                 | (Ok None, st') => (internal_error, st')
                 | (Raise e, st') => (handle_exception e, st')
                 end
             end
    end.

(** One request: [before_request], dispatch, [after_request]. *)
Definition handle_request (rt : runtime) (env : environ) (req : request) (st : store)
  : response * store :=
  let st1 := snd (log_request st) in
  let '((b, code), st2) := dispatch_request rt env req st1 in
  (add_security_headers rt (mkResponse code b []), st2).

(** The store after a sequence of requests, oldest first. *)
Fixpoint run (rt : runtime) (env : environ) (reqs : list request) (st : store) : store :=
  match reqs with
  | [] => st
  | req :: reqs' => run rt env reqs' (snd (handle_request rt env req st))
  end.

(** The request-step relation and the states it reaches from the store the
    module starts with. *)
Inductive step (rt : runtime) (env : environ) : store -> store -> Prop :=
| step_request : forall req st, step rt env st (snd (handle_request rt env req st)).

Inductive reachable (rt : runtime) (env : environ) : store -> Prop :=
| reach_init : reachable rt env data_store
| reach_step : forall st st',
    reachable rt env st -> step rt env st st' -> reachable rt env st'.

(* ------------------------------------------------------------------ *)
(** ** A sample runtime and sample requests *)
(* ------------------------------------------------------------------ *)

Module Sample.

(** The character [{], with which all template syntax starts. *)
Definition brace_free_str (s : str) : bool :=
  forallb (fun c => negb (N.eqb c 123)) (PyStr.codepoints s).

(** The text of a spliced value holds no [{]. *)
Definition brace_free (j : json) : bool :=
  match j with
  | JStr s => brace_free_str s
  | JNull | JBool _ | JInt _ | JFloat _ => true
  | JArr _ | JObj _ => false
  end.

(** A sample engine: it produces the text when no spliced value holds the
    character [{] (such a value is copied to the output as it is) and raises
    otherwise (as on the value [{{]). *)
Definition engine (p : page) : bool :=
  match p with
  | HomePage _ _ _ | UserNotFoundPage _ | SearchPromptPage => true
  | HealthPage t e => brace_free_str t && brace_free_str e
  | StatsPage _ _ _ t e => brace_free_str t && brace_free_str e
  | UsersPage _ cards =>
      forallb (fun c => brace_free_str (uc_avatar c) && brace_free (uc_name c)
                        && brace_free (uc_email c) && brace_free_str (uc_date c)) cards
  | UserDetailPage a n e _ c =>
      brace_free_str a && brace_free_str n && brace_free_str e && brace_free_str c
  | MessagesPage _ cards =>
      forallb (fun c => brace_free_str (mc_avatar c) && brace_free (mc_author c)
                        && brace_free_str (mc_date c) && brace_free (mc_content c)) cards
  | SearchResultsPage q _ cards =>
      brace_free_str q
      && forallb (fun c => brace_free_str (rc_avatar c) && brace_free (rc_name c)
                           && brace_free (rc_email c)) cards
  end.

Lemma ascii_lower_on_ascii s :
  PyStr.is_ascii s = true -> PyStr.ascii_lower s = PyStr.ascii_lower s.
Proof. reflexivity. Qed.

Lemma ascii_lower_empty s : PyStr.ascii_lower s = "" -> s = "".
Proof. destruct s as [[|c l]]; [reflexivity | discriminate]. Qed.

(** The case maps of the sample runtime act on the ASCII letters only. *)
Definition rt0 : runtime :=
  mkRuntime PyStr.ascii_lower PyStr.ascii_upper engine
            ascii_lower_on_ascii ascii_lower_empty.

Definition env0 : environ := mkEnviron None None.

Definition t0 : str := "2024-01-01T10:00:00.000001".
Definition t1 : str := "2024-01-01T10:00:05.000002".
Definition t1_strftime : str := "2024-01-01 10:00:05".

Definition post_user (body : json_outcome) (now : str) : request :=
  mkRequest POST Users None body None now t1_strftime.

Definition delete_user (id : Z) : request :=
  mkRequest DELETE (UserDetail id) None (Returns JNull) None t1 t1_strftime.

Definition get_user (id : Z) : request :=
  mkRequest GET (UserDetail id) None (Returns JNull) None t1 t1_strftime.

Definition get_users : request :=
  mkRequest GET Users None (Returns JNull) None t1 t1_strftime.

Definition get_stats : request :=
  mkRequest GET Stats None (Returns JNull) None t1 t1_strftime.

Definition post_message (key : option str) (body : json_outcome) (now : str) : request :=
  mkRequest POST Messages key body None now t1_strftime.

Definition get_messages (key : option str) : request :=
  mkRequest GET Messages key (Returns JNull) None t1 t1_strftime.

Definition get_search (q : option str) : request :=
  mkRequest GET Search None (Returns JNull) q t1 t1_strftime.

Definition alice : json := JObj [("name", JStr "Alice"); ("email", JStr "a@x.com")].
Definition alice2 : json := JObj [("name", JStr "alice2"); ("email", JStr "a2@x.com")].
Definition bob : json := JObj [("name", JStr "Bob"); ("email", JStr "b@x.com")].

Definition key : option str := Some "demo-api-key".

End Sample.

(* ------------------------------------------------------------------ *)
(** ** Vocabulary of the statements *)
(* ------------------------------------------------------------------ *)

(** The only writes of a view: none, an append to one list, or a filter of
    the users. *)
Inductive effect (st : store) : store -> Prop :=
| eff_none : effect st st
| eff_add_user : forall u,
    u_id u = Py.len (ds_users st) + 1 ->
    effect st (mkStore (ds_visits st) (ds_users st ++ [u]) (ds_messages st))
| eff_add_message : forall m,
    m_id m = Py.len (ds_messages st) + 1 ->
    effect st (mkStore (ds_visits st) (ds_users st) (ds_messages st ++ [m]))
| eff_del_user : forall user_id,
    effect st (mkStore (ds_visits st)
                       (filter (fun u => negb (u_id u =? user_id)) (ds_users st))
                       (ds_messages st)).

(** The integers [1, 2, ..., n]. *)
Definition one_to (n : nat) : list Z := map Z.of_nat (seq 1 n).

Definition message_ids (st : store) : list Z := map m_id (ds_messages st).

Definition ids_in_order (st : store) : Prop :=
  message_ids st = one_to (List.length (ds_messages st)).

(** [get_json()] returns a JSON object that does not bind [k]. *)
Definition lacks_key (k : str) (data : json_outcome) : Prop :=
  exists kv, data = Returns (JObj kv) /\ Py.lookup k kv = None.

Definition user_created (u : user) : body :=
  Json (JObj [("message", JStr "User created successfully"); ("user", user_json u)]).

Definition user_rejected : body :=
  Json (JObj [("error", JStr "Name and email are required")]).

Definition user_deleted : body :=
  Json (JObj [("message", JStr "User deleted successfully")]).

(** No stored user carries this id. *)
Definition unknown_id (user_id : Z) (st : store) : Prop :=
  forall u, In u (ds_users st) -> u_id u <> user_id.

Definition key_rejected : body :=
  Json (JObj [("error", JStr "Invalid or missing API key")]).

(** The configured secret: [API_KEY] from the environment, or the literal. *)
Definition valid_key (env : environ) : str :=
  match API_KEY env with
  | Some k => k
  | None => "demo-api-key"
  end.

(** The header is absent or carries another value. *)
Definition bad_key (env : environ) (req : request) : Prop :=
  x_api_key req = None \/ exists k, x_api_key req = Some k /\ k <> valid_key env.

Definition message_posted (m : message) : body :=
  Json (JObj [("message", JStr "Message posted successfully"); ("data", message_json m)]).

(** A string with at least one character. *)
Definition nonempty_str (x : json) : Prop :=
  exists c s, x = JStr (Str (c :: s)).

(** The response to a view that hands the source [p] to the engine: the
    text of the page with 200 when the engine produces it, the answer of
    [internal_error] when the engine raises. *)
Definition rendered (rt : runtime) (p : page) (out : response) : Prop :=
  if plain p || renders rt p
  then status out = 200 /\ content out = Html p
  else status out = 500 /\ content out = fst internal_error.

(** The card shows this message. *)
Definition shown_as (m : message) (c : message_card) : Prop :=
  mc_author c = m_author m /\ mc_content c = m_content m /\
  mc_date c = shown_time (m_created_at m).

(** The source of the messages page for this store: its cards, top to
    bottom, show the stored messages from the last one appended to the
    first. *)
Definition newest_first_page (st : store) (p : page) : Prop :=
  exists cards,
    p = MessagesPage (Py.len (ds_messages st)) cards /\
    Forall2 shown_as (rev (ds_messages st)) cards.

(** The response is the messages page, and its cards, top to bottom, show
    the stored messages from the last one appended to the first. *)
Definition lists_newest_first (out : response) (st : store) : Prop :=
  exists cards,
    status out = 200 /\
    content out = Html (MessagesPage (Py.len (ds_messages st)) cards) /\
    Forall2 shown_as (rev (ds_messages st)) cards.

(** The user's name is a string in which [q] occurs once both are put in
    lower case. *)
Definition name_contains (rt : runtime) (q : str) (u : user) : Prop :=
  exists n, u_name u = JStr n /\ PyStr.occurs_in (str_lower rt q) (str_lower rt n).

(** [selects P l r]: [r] is [l] without the elements that fail [P], the
    others kept in place and in order. *)
Inductive selects (P : user -> Prop) : list user -> list user -> Prop :=
| sel_nil : selects P [] []
| sel_keep : forall u l r, P u -> selects P l r -> selects P (u :: l) (u :: r)
| sel_drop : forall u l r, ~ P u -> selects P l r -> selects P (u :: l) r.

Definition listed_as (u : user) (c : result_card) : Prop :=
  rc_name c = u_name u /\ rc_email c = u_email u.

(** The source of the results page for [q] on this store: its cards are
    those of exactly the users whose name contains [q], in the order of the
    store, and the count is their number. *)
Definition results_page (rt : runtime) (q : str) (st : store) (p : page) : Prop :=
  exists results cards,
    p = SearchResultsPage (str_lower rt q) (Py.len results) cards /\
    selects (name_contains rt q) (ds_users st) results /\
    Forall2 listed_as results cards.

(** The response is the results page for [q] with status 200. *)
Definition search_finds (rt : runtime) (q : str) (out : response) (st : store) : Prop :=
  exists p, results_page rt q st p /\ status out = 200 /\ content out = Html p.

Definition names_are_strings (st : store) : Prop :=
  Forall (fun u => exists n, u_name u = JStr n) (ds_users st).

(** The test of the comprehension, on a name that is a string. *)
Definition matches (rt : runtime) (query : str) (u : user) : bool :=
  match u_name u with
  | JStr n => PyStr.contains query (str_lower rt n)
  | _ => false
  end.

(** What [respond] leaves the request cycle with. *)
Definition respond_reply (rt : runtime) (p : page) (code : Z) : reply :=
  if plain p || renders rt p then (Html p, code) else internal_error.

#[local] Hint Constructors effect : core.

(* ------------------------------------------------------------------ *)
(** ** Facts on strings *)
(* ------------------------------------------------------------------ *)

Module PyStrFacts.

Lemma list_eqb_eq a : forall b, PyStr.list_eqb a b = true <-> a = b.
Proof.
  induction a as [|x a IH]; intros [|y b]; cbn [PyStr.list_eqb];
    try (split; [discriminate | intros H; discriminate H]);
    [split; reflexivity|].
  rewrite andb_true_iff, N.eqb_eq, IH. split.
  - intros [-> ->]. reflexivity.
  - intros H. injection H as -> ->. auto.
Qed.

Lemma eqb_eq a b : PyStr.eqb a b = true <-> a = b.
Proof.
  destruct a as [a], b as [b]. unfold PyStr.eqb. cbn [PyStr.codepoints].
  rewrite list_eqb_eq. split; [intros ->; reflexivity | intros H; injection H; auto].
Qed.

Lemma eqb_refl a : PyStr.eqb a a = true.
Proof. apply eqb_eq. reflexivity. Qed.

Lemma eqb_neq a b : PyStr.eqb a b = false <-> a <> b.
Proof.
  rewrite <- not_true_iff_false, eqb_eq. reflexivity.
Qed.

Lemma eqb_spec a b : reflect (a = b) (PyStr.eqb a b).
Proof. apply iff_reflect. symmetry. apply eqb_eq. Qed.

Lemma prefix_occurs q : forall s,
  PyStr.list_prefix q s = true <-> exists post, s = q ++ post.
Proof.
  induction q as [|a q IH]; intros s; cbn [PyStr.list_prefix app].
  - split; [intros _; exists s; reflexivity | reflexivity].
  - destruct s as [|b s].
    + split; [discriminate | intros [post H]; discriminate H].
    + rewrite andb_true_iff, N.eqb_eq, IH. split.
      * intros [-> [post ->]]. exists post. reflexivity.
      * intros [post H]. injection H as -> ->. eauto.
Qed.

Lemma list_contains_unfold q s :
  PyStr.list_contains q s =
  if PyStr.list_prefix q s then true
  else match s with
       | [] => false
       | _ :: s' => PyStr.list_contains q s'
       end.
Proof. destruct s; reflexivity. Qed.

(** [contains] decides occurrence. *)
Lemma contains_occurs q s :
  PyStr.contains q s = true <-> PyStr.occurs_in q s.
Proof.
  unfold PyStr.occurs_in, PyStr.contains.
  generalize (PyStr.codepoints q) as ql, (PyStr.codepoints s) as sl.
  intros ql sl. split.
  - induction sl as [|c sl IH]; rewrite list_contains_unfold;
      destruct (PyStr.list_prefix ql _) eqn:Hp.
    + intros _. apply prefix_occurs in Hp. destruct Hp as [post H].
      exists [], post. exact H.
    + discriminate.
    + intros _. apply prefix_occurs in Hp. destruct Hp as [post H].
      exists [], post. exact H.
    + intros H. destruct (IH H) as [pre [post E]].
      exists (c :: pre), post. rewrite E. reflexivity.
  - intros [pre [post E]]. revert sl E.
    induction pre as [|c pre IH]; intros sl E; rewrite list_contains_unfold.
    + assert (Hp : PyStr.list_prefix ql sl = true)
        by (apply prefix_occurs; exists post; exact E).
      rewrite Hp. reflexivity.
    + destruct (PyStr.list_prefix ql sl); [reflexivity|].
      rewrite E. cbn [app]. apply IH. reflexivity.
Qed.

Lemma nonempty_iff s : PyStr.nonempty s = true <-> s <> "".
Proof.
  destruct s as [[|c l]]; cbn; split; congruence.
Qed.

(** A string that contains a non-empty one is not empty. *)
Lemma contains_nonempty q s :
  PyStr.nonempty q = true -> PyStr.contains q s = true -> PyStr.nonempty s = true.
Proof. destruct q as [[|a q]], s as [[|b s]]; cbn; congruence. Qed.

End PyStrFacts.

(** What the two laws of a runtime give. *)
Lemma lower_of_empty rt : str_lower rt "" = "".
Proof. rewrite (lower_ascii rt "" eq_refl). reflexivity. Qed.

Lemma lower_nonempty rt s :
  PyStr.nonempty (str_lower rt s) = PyStr.nonempty s.
Proof.
  destruct (PyStr.nonempty s) eqn:Hs.
  - apply PyStrFacts.nonempty_iff. intros H. apply (lower_empty rt) in H.
    apply PyStrFacts.nonempty_iff in Hs. contradiction.
  - destruct s as [[|c l]]; [|discriminate Hs]. rewrite lower_of_empty. reflexivity.
Qed.
(* ------------------------------------------------------------------ *)
(** ** What each view can do to the store *)
(* ------------------------------------------------------------------ *)

(** Case analysis on whatever the goal scrutinises next. *)
Ltac case_scrutinee :=
  match goal with
  | |- context [match ?x with _ => _ end] =>
      lazymatch x with
      | context [match _ with _ => _ end] => fail
      | _ => destruct x eqn:?
      end
  end.

Ltac run_view :=
  unfold respond, bind, ret, lift, read, write; cbn [fst snd];
  repeat (case_scrutinee; cbn [fst snd]).

Lemma users_effect rt req st : effect st (snd (users rt req st)).
Proof.
  unfold users. run_view; auto.
Qed.

Lemma user_detail_effect rt user_id req st :
  effect st (snd (user_detail rt user_id req st)).
Proof. unfold user_detail. run_view; auto. Qed.

Lemma messages_view_effect rt req st : effect st (snd (messages_view rt req st)).
Proof.
  unfold messages_view. run_view; auto.
Qed.

Lemma require_api_key_effect env (f : view) req st :
  (forall st0, effect st0 (snd (f req st0))) ->
  effect st (snd (require_api_key env f req st)).
Proof. intros Hf. unfold require_api_key. run_view; auto. Qed.

Lemma search_effect rt req st : effect st (snd (search rt req st)).
Proof. unfold search. run_view; auto. Qed.

Lemma view_of_effect rt env r req st : effect st (snd (view_of rt env r req st)).
Proof.
  destruct r; cbn [view_of].
  - unfold home. run_view; auto.
  - unfold health_check. run_view; auto.
  - unfold get_stats. run_view; auto.
  - apply users_effect.
  - apply user_detail_effect.
  - apply require_api_key_effect. intros. apply messages_view_effect.
  - apply search_effect.
  - cbn. auto.
Qed.

Lemma dispatch_request_effect rt env req st :
  effect st (snd (dispatch_request rt env req st)).
Proof.
  unfold dispatch_request.
  pose proof (view_of_effect rt env (target req) req st) as H.
  destruct (target req); cbn [snd]; auto;
    (destruct (negb _); cbn [snd]; auto;
     destruct (method req); cbn [snd]; auto;
     destruct (view_of _ _ _ _ _) as [[[?|]|] ?]; cbn [snd] in *; auto).
Qed.

(** The store after one request: the hook's increment, then the view's
    effect. *)
Lemma handle_request_store rt env req st :
  snd (handle_request rt env req st) =
  snd (dispatch_request rt env req (snd (log_request st))).
Proof.
  unfold handle_request.
  destruct (dispatch_request rt env req (snd (log_request st))) as [[b c] st2].
  reflexivity.
Qed.

Lemma handle_request_status rt env req st :
  status (fst (handle_request rt env req st)) =
  snd (fst (dispatch_request rt env req (snd (log_request st)))).
Proof.
  unfold handle_request.
  destruct (dispatch_request rt env req (snd (log_request st))) as [[b c] st2].
  reflexivity.
Qed.

Lemma handle_request_content rt env req st :
  content (fst (handle_request rt env req st)) =
  fst (fst (dispatch_request rt env req (snd (log_request st)))).
Proof.
  unfold handle_request.
  destruct (dispatch_request rt env req (snd (log_request st))) as [[b c] st2].
  reflexivity.
Qed.

Lemma effect_visits st st' : effect st st' -> ds_visits st' = ds_visits st.
Proof. destruct 1; reflexivity. Qed.

(* ------------------------------------------------------------------ *)
(** ** The visit counter *)
(* ------------------------------------------------------------------ *)

Lemma handle_request_visits rt env req st :
  ds_visits (snd (handle_request rt env req st)) = ds_visits st + 1.
Proof.
  rewrite handle_request_store.
  rewrite (effect_visits _ _ (dispatch_request_effect rt env req _)).
  reflexivity.
Qed.

Lemma run_visits rt env reqs : forall st,
  ds_visits (run rt env reqs st) = ds_visits st + Py.len reqs.
Proof.
  unfold Py.len.
  induction reqs as [|req reqs IH]; intros st; cbn [run List.length].
  - lia.
  - rewrite IH, handle_request_visits. lia.
Qed.

Lemma step_visits rt env st st' : step rt env st st' -> ds_visits st' = ds_visits st + 1.
Proof. destruct 1. apply handle_request_visits. Qed.

(** C8.  Whatever the request is (any method, any route or none, any key,
    any body) and whatever its outcome, the store after it has a visit
    counter one above the counter before it; consequently the counter after
    a sequence of requests is the initial one plus the number of requests,
    and it never goes down. *)
Theorem visits_incremented_once_per_request :
  forall rt env req st,
    ds_visits (snd (handle_request rt env req st)) = ds_visits st + 1 /\
    (forall reqs, ds_visits (run rt env reqs st) = ds_visits st + Py.len reqs) /\
    (forall reqs, ds_visits st <= ds_visits (run rt env reqs st)).
Proof.
  intros rt env req st. split; [apply handle_request_visits|].
  split; intros reqs; rewrite run_visits; unfold Py.len; lia.
Qed.

(* ------------------------------------------------------------------ *)
(** ** Message identifiers *)
(* ------------------------------------------------------------------ *)

Lemma one_to_snoc n : one_to (S n) = one_to n ++ [Z.of_nat n + 1].
Proof.
  unfold one_to. rewrite seq_S, map_app. cbn [map Nat.add].
  do 2 f_equal. lia.
Qed.

Lemma one_to_NoDup n : NoDup (one_to n).
Proof.
  unfold one_to. apply Injective_map_NoDup.
  - intros a b. apply Nat2Z.inj.
  - apply seq_NoDup.
Qed.

Lemma effect_ids_in_order st st' :
  effect st st' -> ids_in_order st -> ids_in_order st'.
Proof.
  unfold ids_in_order, message_ids.
  destruct 1 as [|u Hu|m Hm|uid]; cbn [ds_messages]; auto.
  intros IH. rewrite map_app, length_app, IH. cbn [map List.length].
  rewrite Nat.add_1_r, one_to_snoc, Hm. reflexivity.
Qed.

Lemma handle_request_ids_in_order rt env req st :
  ids_in_order st -> ids_in_order (snd (handle_request rt env req st)).
Proof.
  intros H. rewrite handle_request_store.
  apply (effect_ids_in_order _ _ (dispatch_request_effect rt env req _)).
  exact H.
Qed.

Lemma run_ids_in_order rt env reqs : forall st,
  ids_in_order st -> ids_in_order (run rt env reqs st).
Proof.
  induction reqs as [|req reqs IH]; intros st H; cbn [run]; auto.
  apply IH, handle_request_ids_in_order, H.
Qed.

Lemma reachable_ids_in_order rt env st : reachable rt env st -> ids_in_order st.
Proof.
  induction 1 as [|st st' Hreach IH Hstep].
  - reflexivity.
  - destruct Hstep. apply handle_request_ids_in_order, IH.
Qed.

Lemma run_snoc rt env reqs req : forall st,
  run rt env (reqs ++ [req]) st = snd (handle_request rt env req (run rt env reqs st)).
Proof. induction reqs as [|r reqs IH]; intros st; cbn [run app]; auto. Qed.

(** The states [run] produces from [data_store] are the reachable ones. *)
Lemma reachable_iff_run rt env st :
  reachable rt env st <-> exists reqs, st = run rt env reqs data_store.
Proof.
  split.
  - induction 1 as [|st st' Hreach IH Hstep].
    + exists []. reflexivity.
    + destruct IH as [reqs Hrun]. destruct Hstep as [req st].
      exists (reqs ++ [req]). rewrite run_snoc, <- Hrun. reflexivity.
  - intros [reqs ->]. induction reqs as [|req reqs IH] using rev_ind.
    + constructor.
    + rewrite run_snoc. econstructor; [exact IH | constructor].
Qed.

(** C10.  After any sequence of requests on the initial store, the ids of
    the stored messages, read in insertion order, are 1, 2, ..., n where n
    is the number of stored messages; in particular they are pairwise
    distinct. *)
Theorem message_ids_are_one_to_n :
  forall rt env reqs,
    let st := run rt env reqs data_store in
    message_ids st = one_to (List.length (ds_messages st)) /\
    NoDup (message_ids st).
Proof.
  intros rt env reqs st.
  assert (H : ids_in_order st) by (apply run_ids_in_order; reflexivity).
  split; [exact H|]. rewrite H. apply one_to_NoDup.
Qed.

(** User ids, by contrast, can repeat: create two users, delete the first,
    create a third. *)
Example user_ids_can_collide :
  map u_id (ds_users (run Sample.rt0 Sample.env0
    [Sample.post_user (Returns Sample.alice) Sample.t0;
     Sample.post_user (Returns Sample.bob) Sample.t0;
     Sample.delete_user 1;
     Sample.post_user (Returns Sample.alice2) Sample.t1] data_store)) = [2; 2].
Proof. reflexivity. Qed.

(* ------------------------------------------------------------------ *)
(** ** Creating users *)
(* ------------------------------------------------------------------ *)

Lemma lookup_some_truthy k kv v : Py.lookup k kv = Some v -> Py.truthy (JObj kv) = true.
Proof. destruct kv; [discriminate | reflexivity]. Qed.

(** The validation of [users] on the decoded bodies that fail it ... *)
Lemma invalid_user_body data :
  data = Returns JNull \/ lacks_key "name" data \/ lacks_key "email" data ->
  exists d, data = Returns d /\ invalid d ["name"; "email"] = Ok true.
Proof.
  intros [-> | [[kv [-> H]] | [kv [-> H]]]]; eexists; (split; [reflexivity|]);
    [reflexivity| |];
    unfold invalid; destruct (negb (Py.truthy (JObj kv))); auto;
    cbn [missing_any Py.contains rbind].
  - rewrite H. reflexivity.
  - destruct (Py.lookup "name" kv); cbn [negb]; [rewrite H|]; reflexivity.
Qed.

(** ... and on those that pass. *)
Lemma valid_user_body kv name email :
  Py.lookup "name" kv = Some name -> Py.lookup "email" kv = Some email ->
  invalid (JObj kv) ["name"; "email"] = Ok false.
Proof.
  intros Hn He. unfold invalid.
  rewrite (lookup_some_truthy _ _ _ Hn).
  cbn [negb missing_any Py.contains rbind]. rewrite Hn, He. reflexivity.
Qed.

Lemma post_user_rejected rt env req st :
  method req = POST -> target req = Users ->
  get_json req = Returns JNull \/ lacks_key "name" (get_json req)
    \/ lacks_key "email" (get_json req) ->
  handle_request rt env req st =
  (add_security_headers rt (mkResponse 400 user_rejected []),
   mkStore (ds_visits st + 1) (ds_users st) (ds_messages st)).
Proof.
  intros Hm Ht Hbad.
  destruct (invalid_user_body _ Hbad) as [d [Hd Hinv]].
  unfold handle_request, dispatch_request. rewrite Ht, Hm.
  cbn [allowed negb view_of log_request snd]. unfold users. rewrite Hm.
  unfold request_get_json. rewrite Hd.
  unfold bind, lift. rewrite Hinv. reflexivity.
Qed.

Lemma post_user_aborted rt env req st e :
  method req = POST -> target req = Users ->
  get_json req = Aborts e ->
  handle_request rt env req st =
  (add_security_headers rt (mkResponse (http_code e) Default []),
   mkStore (ds_visits st + 1) (ds_users st) (ds_messages st)).
Proof.
  intros Hm Ht He.
  unfold handle_request, dispatch_request. rewrite Ht, Hm.
  cbn [allowed negb view_of log_request snd]. unfold users. rewrite Hm.
  unfold request_get_json. rewrite He. reflexivity.
Qed.

Lemma post_user_created rt env req st kv name email :
  method req = POST -> target req = Users ->
  get_json req = Returns (JObj kv) ->
  Py.lookup "name" kv = Some name -> Py.lookup "email" kv = Some email ->
  let u := mkUser (Py.len (ds_users st) + 1) name email (utcnow req) in
  handle_request rt env req st =
  (add_security_headers rt (mkResponse 201 (user_created u) []),
   mkStore (ds_visits st + 1) (ds_users st ++ [u]) (ds_messages st)).
Proof.
  intros Hm Ht Hj Hn He u.
  unfold handle_request, dispatch_request. rewrite Ht, Hm.
  cbn [allowed negb view_of log_request snd]. unfold users. rewrite Hm.
  unfold request_get_json. rewrite Hj.
  unfold bind, lift. rewrite (valid_user_body _ _ _ Hn He).
  cbn. rewrite Hn, He. reflexivity.
Qed.

(** C2, as the code has it.  On a POST to /api/users: when [get_json()]
    returns [None] or an object without the key 'name' or without the key
    'email', the answer is 400 with the validation message; when
    [get_json()] itself aborts the request (415 for a request without a
    JSON body, 400 for a body that does not parse), that error is the
    answer and the handler's check is not reached; in both cases the users
    list is left as it was.  When the body is an object with both keys the
    answer is 201 with the new record, which is appended to the users
    list. *)
Theorem create_user_validation :
  forall rt env req st,
    method req = POST -> target req = Users ->
    let out := handle_request rt env req st in
    (get_json req = Returns JNull \/ lacks_key "name" (get_json req)
       \/ lacks_key "email" (get_json req) ->
     status (fst out) = 400 /\ content (fst out) = user_rejected /\
     ds_users (snd out) = ds_users st) /\
    (forall e, get_json req = Aborts e ->
     status (fst out) = http_code e /\ content (fst out) = Default /\
     ds_users (snd out) = ds_users st) /\
    (forall kv name email,
       get_json req = Returns (JObj kv) ->
       Py.lookup "name" kv = Some name -> Py.lookup "email" kv = Some email ->
       let u := mkUser (Py.len (ds_users st) + 1) name email (utcnow req) in
       status (fst out) = 201 /\ content (fst out) = user_created u /\
       ds_users (snd out) = ds_users st ++ [u]).
Proof.
  intros rt env req st Hm Ht out. subst out. repeat apply conj.
  - intros Hbad. rewrite (post_user_rejected rt env req st Hm Ht Hbad). auto.
  - intros e He. rewrite (post_user_aborted rt env req st e Hm Ht He). auto.
  - intros kv name email Hj Hn He u.
    rewrite (post_user_created rt env req st kv name email Hm Ht Hj Hn He). auto.
Qed.

Lemma create_user_validation_witness :
  (let out := handle_request Sample.rt0 Sample.env0
                (Sample.post_user (Returns (JObj [("name", JStr "Alice")])) Sample.t0)
                data_store in
   status (fst out) = 400 /\ content (fst out) = user_rejected /\
   ds_users (snd out) = []) /\
  (let out := handle_request Sample.rt0 Sample.env0
                (Sample.post_user (Aborts UnsupportedMediaType) Sample.t0)
                data_store in
   status (fst out) = 415 /\ content (fst out) = Default /\
   ds_users (snd out) = []) /\
  (let out := handle_request Sample.rt0 Sample.env0
                (Sample.post_user (Returns Sample.alice) Sample.t0) data_store in
   let u := mkUser 1 (JStr "Alice") (JStr "a@x.com") Sample.t0 in
   status (fst out) = 201 /\ content (fst out) = user_created u /\
   ds_users (snd out) = [u]).
Proof.
  split; [|split].
  - apply (create_user_validation Sample.rt0 Sample.env0
             (Sample.post_user (Returns (JObj [("name", JStr "Alice")])) Sample.t0)
             data_store eq_refl eq_refl).
    right. right. exists [("name", JStr "Alice")]. split; reflexivity.
  - apply (proj1 (proj2 (create_user_validation Sample.rt0 Sample.env0
             (Sample.post_user (Aborts UnsupportedMediaType) Sample.t0)
             data_store eq_refl eq_refl)) UnsupportedMediaType eq_refl).
  - apply (proj2 (proj2 (create_user_validation Sample.rt0 Sample.env0
             (Sample.post_user (Returns Sample.alice) Sample.t0)
             data_store eq_refl eq_refl))
             [("name", JStr "Alice"); ("email", JStr "a@x.com")]
             (JStr "Alice") (JStr "a@x.com"));
      reflexivity.
Defined.

(** C2, as the claim states it, fails twice.  A request without a JSON body
    is aborted by [get_json()] with 415 on the current framework, before the
    check that would answer 400.  And a body that decodes to the number 5
    has neither key, yet the membership test ['name' not in data] raises
    [TypeError] on it and the answer is 500. *)
Lemma create_user_validation_counterexample :
  let absent := Sample.post_user (Aborts UnsupportedMediaType) Sample.t0 in
  let five := Sample.post_user (Returns (JInt 5)) Sample.t0 in
  status (fst (handle_request Sample.rt0 Sample.env0 absent data_store)) = 415 /\
  users Sample.rt0 five data_store = (Raise TypeError, data_store) /\
  status (fst (handle_request Sample.rt0 Sample.env0 five data_store)) = 500 /\
  ~ (status (fst (handle_request Sample.rt0 Sample.env0 absent data_store)) = 400) /\
  ~ (status (fst (handle_request Sample.rt0 Sample.env0 five data_store)) = 400).
Proof.
  repeat split; intros H; vm_compute in H; discriminate H.
Qed.
(** C3.  A user creation that passes validation appends a record whose id
    is the number of users stored before it plus one, and returns that
    record; on the initial store the first creation gets id 1 and the one
    right after it gets id 2. *)
Theorem user_id_is_count_plus_one :
  forall rt env req st kv name email,
    method req = POST -> target req = Users ->
    get_json req = Returns (JObj kv) ->
    Py.lookup "name" kv = Some name -> Py.lookup "email" kv = Some email ->
    (exists u,
       u_id u = Py.len (ds_users st) + 1 /\
       ds_users (snd (handle_request rt env req st)) = ds_users st ++ [u] /\
       content (fst (handle_request rt env req st)) = user_created u /\
       status (fst (handle_request rt env req st)) = 201) /\
    (forall req2 kv2 name2 email2,
       method req2 = POST -> target req2 = Users ->
       get_json req2 = Returns (JObj kv2) ->
       Py.lookup "name" kv2 = Some name2 -> Py.lookup "email" kv2 = Some email2 ->
       map u_id (ds_users (run rt env [req] data_store)) = [1] /\
       map u_id (ds_users (run rt env [req; req2] data_store)) = [1; 2]).
Proof.
  intros rt env req st kv name email Hm Ht Hj Hn He. split.
  - rewrite (post_user_created rt env req st kv name email Hm Ht Hj Hn He).
    exists (mkUser (Py.len (ds_users st) + 1) name email (utcnow req)).
    repeat split.
  - intros req2 kv2 name2 email2 Hm2 Ht2 Hj2 Hn2 He2. cbn [run].
    rewrite (post_user_created rt env req data_store kv name email Hm Ht Hj Hn He).
    cbn [snd].
    rewrite (post_user_created rt env req2 _ kv2 name2 email2 Hm2 Ht2 Hj2 Hn2 He2).
    split; reflexivity.
Qed.

Lemma user_id_is_count_plus_one_witness :
  let req := Sample.post_user (Returns Sample.alice) Sample.t0 in
  let req2 := Sample.post_user (Returns Sample.bob) Sample.t1 in
  let st := run Sample.rt0 Sample.env0 [req; req2] data_store in
  (exists u,
     u_id u = 3 /\
     ds_users (snd (handle_request Sample.rt0 Sample.env0 req st)) = ds_users st ++ [u] /\
     content (fst (handle_request Sample.rt0 Sample.env0 req st)) = user_created u /\
     status (fst (handle_request Sample.rt0 Sample.env0 req st)) = 201) /\
  map u_id (ds_users (run Sample.rt0 Sample.env0 [req] data_store)) = [1] /\
  map u_id (ds_users st) = [1; 2].
Proof.
  intros req req2 st.
  pose proof (user_id_is_count_plus_one Sample.rt0 Sample.env0 req st
                [("name", JStr "Alice"); ("email", JStr "a@x.com")] (JStr "Alice")
                (JStr "a@x.com") eq_refl eq_refl eq_refl eq_refl eq_refl) as [H1 H2].
  split; [exact H1|].
  apply (H2 req2 [("name", JStr "Bob"); ("email", JStr "b@x.com")]
            (JStr "Bob") (JStr "b@x.com")); reflexivity.
Defined.

(** C9.  Validation looks at the presence of the two keys only: a POST to
    /api/users whose body binds 'name' and 'email' to empty strings is
    answered 201 and appends a record with those empty values. *)
Theorem empty_name_and_email_accepted :
  forall rt env req st kv,
    method req = POST -> target req = Users ->
    get_json req = Returns (JObj kv) ->
    Py.lookup "name" kv = Some (JStr "") -> Py.lookup "email" kv = Some (JStr "") ->
    let out := handle_request rt env req st in
    let u := mkUser (Py.len (ds_users st) + 1) (JStr "") (JStr "") (utcnow req) in
    status (fst out) = 201 /\ content (fst out) = user_created u /\
    ds_users (snd out) = ds_users st ++ [u].
Proof.
  intros rt env req st kv Hm Ht Hj Hn He out u. subst out.
  rewrite (post_user_created rt env req st kv _ _ Hm Ht Hj Hn He). auto.
Qed.

Lemma empty_name_and_email_accepted_witness :
  let req := Sample.post_user
               (Returns (JObj [("name", JStr ""); ("email", JStr "")])) Sample.t0 in
  let out := handle_request Sample.rt0 Sample.env0 req data_store in
  let u := mkUser 1 (JStr "") (JStr "") Sample.t0 in
  status (fst out) = 201 /\ content (fst out) = user_created u /\
  ds_users (snd out) = [u].
Proof.
  intros req.
  apply (empty_name_and_email_accepted Sample.rt0 Sample.env0 req data_store
           [("name", JStr ""); ("email", JStr "")]); reflexivity.
Defined.

(* ------------------------------------------------------------------ *)
(** ** Deleting users *)
(* ------------------------------------------------------------------ *)

Lemma find_unknown_id user_id l :
  (forall u, In u l -> u_id u <> user_id) ->
  find (fun u => u_id u =? user_id) l = None.
Proof.
  induction l as [|u l IH]; intros H; cbn [find]; auto.
  destruct (Z.eqb_spec (u_id u) user_id) as [E|_].
  - exfalso. apply (H u); [left; reflexivity | exact E].
  - apply IH. intros u' Hin. apply H. right. exact Hin.
Qed.

Lemma find_known_id user_id l u :
  In u l -> u_id u = user_id ->
  exists u', find (fun u => u_id u =? user_id) l = Some u'.
Proof.
  intros Hin Hid.
  destruct (find (fun u => u_id u =? user_id) l) eqn:E; eauto.
  exfalso. apply (find_none _ _ E) in Hin. cbn in Hin.
  apply Z.eqb_neq in Hin. contradiction.
Qed.

(** C1, as the code has it.  A DELETE on /api/users/{id} whose id matches no
    stored user is answered by the not-found guard that precedes the method
    test: status 404 with the "User Not Found" page, no deletion
    confirmation; the users list is left as it was. *)
Theorem delete_unknown_user_not_found :
  forall rt env req st user_id,
    method req = DELETE -> target req = UserDetail user_id ->
    unknown_id user_id st ->
    let out := handle_request rt env req st in
    status (fst out) = 404 /\
    content (fst out) = Html (UserNotFoundPage user_id) /\
    ds_users (snd out) = ds_users st.
Proof.
  intros rt env req st user_id Hm Ht Hun out. subst out.
  unfold handle_request, dispatch_request. rewrite Ht, Hm.
  cbn [allowed negb view_of log_request snd]. unfold user_detail, respond, bind, read.
  cbn [ds_users]. rewrite (find_unknown_id _ _ Hun). cbn. auto.
Qed.

Lemma delete_unknown_user_not_found_witness :
  let out := handle_request Sample.rt0 Sample.env0 (Sample.delete_user 7)
               (run Sample.rt0 Sample.env0 [Sample.post_user (Returns Sample.alice) Sample.t0]
                    data_store) in
  status (fst out) = 404 /\
  content (fst out) = Html (UserNotFoundPage 7) /\
  ds_users (snd out) = [mkUser 1 (JStr "Alice") (JStr "a@x.com") Sample.t0].
Proof.
  apply (delete_unknown_user_not_found Sample.rt0 Sample.env0 (Sample.delete_user 7)
           (run Sample.rt0 Sample.env0 [Sample.post_user (Returns Sample.alice) Sample.t0] data_store)
           7 eq_refl eq_refl).
  intros u [<- | []]. cbn. lia.
Defined.

(** C1, as the claim states it, fails: on the initial store no user has id 1,
    and DELETE /api/users/1 is not answered 200 with the confirmation. *)
Lemma delete_unknown_user_counterexample :
  let out := handle_request Sample.rt0 Sample.env0 (Sample.delete_user 1) data_store in
  unknown_id 1 data_store /\
  ~ (status (fst out) = 200 /\ content (fst out) = user_deleted /\
     ds_users (snd out) = ds_users data_store).
Proof.
  split.
  - intros u [].
  - intros [H _]. vm_compute in H. discriminate H.
Qed.

(** The confirmation is what a DELETE with a stored id gets; every user with
    that id is removed. *)
Lemma delete_known_user rt env req st user_id u :
  method req = DELETE -> target req = UserDetail user_id ->
  In u (ds_users st) -> u_id u = user_id ->
  let out := handle_request rt env req st in
  status (fst out) = 200 /\ content (fst out) = user_deleted /\
  ds_users (snd out) = filter (fun u => negb (u_id u =? user_id)) (ds_users st).
Proof.
  intros Hm Ht Hin Hid out. subst out.
  unfold handle_request, dispatch_request. rewrite Ht, Hm.
  cbn [allowed negb view_of log_request snd]. unfold user_detail, respond, bind, read.
  cbn [ds_users]. destruct (find_known_id _ _ _ Hin Hid) as [u' ->].
  rewrite Hm. cbn. auto.
Qed.

(** The detail page of an id that was created and then deleted is the
    not-found page again. *)
Example get_deleted_user :
  let st := run Sample.rt0 Sample.env0
              [Sample.post_user (Returns Sample.alice) Sample.t0;
               Sample.delete_user 1] data_store in
  status (fst (handle_request Sample.rt0 Sample.env0 (Sample.get_user 1) st)) = 404 /\
  status (fst (handle_request Sample.rt0 Sample.env0 (Sample.get_user 1) data_store)) = 404.
Proof. split; reflexivity. Qed.

(* ------------------------------------------------------------------ *)
(** ** The key check in front of the messages view *)
(* ------------------------------------------------------------------ *)

Lemma bad_key_differs env req :
  bad_key env req ->
  key_differs (x_api_key req) (environ_get (API_KEY env) "demo-api-key") = true.
Proof.
  intros [-> | [k [-> Hk]]]; [reflexivity|].
  cbn [key_differs]. apply negb_true_iff, PyStrFacts.eqb_neq. exact Hk.
Qed.

Lemma good_key_passes env req :
  x_api_key req = Some (valid_key env) ->
  key_differs (x_api_key req) (environ_get (API_KEY env) "demo-api-key") = false.
Proof.
  intros ->. cbn [key_differs]. apply negb_false_iff, PyStrFacts.eqb_refl.
Qed.

(** C5.  A GET or POST on /api/messages whose X-API-Key header is absent or
    is not the configured secret is answered 401 by the decorator, whatever
    the function it wraps (that function is not called), and the whole
    request leaves the messages list and the users list as they were. *)
Theorem bad_key_rejected_before_view :
  forall rt env req st,
    target req = Messages -> method req = GET \/ method req = POST ->
    bad_key env req ->
    (forall f : view,
       require_api_key env f req st = (Ok (Some (key_rejected, 401)), st)) /\
    let out := handle_request rt env req st in
    status (fst out) = 401 /\ content (fst out) = key_rejected /\
    ds_messages (snd out) = ds_messages st /\ ds_users (snd out) = ds_users st.
Proof.
  intros rt env req st Ht Hm Hbad.
  assert (Hdec : forall (f : view) st0,
             require_api_key env f req st0 = (Ok (Some (key_rejected, 401)), st0)).
  { intros f st0. unfold require_api_key. rewrite (bad_key_differs _ _ Hbad). reflexivity. }
  split; [intros f; apply Hdec|].
  unfold handle_request, dispatch_request. rewrite Ht.
  destruct Hm as [-> | ->]; cbn [allowed negb view_of]; unfold messages;
    rewrite Hdec; cbn; auto.
Qed.

Lemma bad_key_rejected_before_view_witness :
  let req := Sample.post_message (Some "guess")
               (Returns (JObj [("content", JStr "hi")])) Sample.t0 in
  (forall f : view,
     require_api_key Sample.env0 f req data_store
     = (Ok (Some (key_rejected, 401)), data_store)) /\
  let out := handle_request Sample.rt0 Sample.env0 req data_store in
  status (fst out) = 401 /\ content (fst out) = key_rejected /\
  ds_messages (snd out) = [] /\ ds_users (snd out) = [].
Proof.
  intros req.
  apply (bad_key_rejected_before_view Sample.rt0 Sample.env0 req data_store eq_refl
           (or_intror eq_refl)).
  right. exists "guess". split; [reflexivity|]. cbn. discriminate.
Defined.

(* ------------------------------------------------------------------ *)
(** ** Creating messages *)
(* ------------------------------------------------------------------ *)

Lemma valid_message_body kv c :
  Py.lookup "content" kv = Some c ->
  invalid (JObj kv) ["content"] = Ok false.
Proof.
  intros Hc. unfold invalid. rewrite (lookup_some_truthy _ _ _ Hc).
  cbn [negb missing_any Py.contains rbind]. rewrite Hc. reflexivity.
Qed.

Lemma post_message_created rt env req st kv c :
  method req = POST -> target req = Messages ->
  x_api_key req = Some (valid_key env) ->
  get_json req = Returns (JObj kv) -> Py.lookup "content" kv = Some c ->
  let author := match Py.lookup "author" kv with
                | Some a => a
                | None => JStr "Anonymous"
                end in
  let m := mkMessage (Py.len (ds_messages st) + 1) c author (utcnow req) in
  handle_request rt env req st =
  (add_security_headers rt (mkResponse 201 (message_posted m) []),
   mkStore (ds_visits st + 1) (ds_users st) (ds_messages st ++ [m])).
Proof.
  intros Hm Ht Hk Hj Hc author m.
  unfold handle_request, dispatch_request. rewrite Ht, Hm.
  cbn [allowed negb view_of log_request snd]. unfold messages, require_api_key.
  rewrite (good_key_passes _ _ Hk). unfold messages_view. rewrite Hm.
  unfold request_get_json. rewrite Hj.
  unfold bind, lift. rewrite (valid_message_body _ _ Hc).
  cbn. rewrite Hc. reflexivity.
Qed.

(** C6.  A POST to /api/messages that passes the key check and whose body is
    an object with the key 'content' appends and returns one message; its
    author is the string "Anonymous" when the body has no key 'author', and
    is the value bound to 'author' otherwise. *)
Theorem author_defaults_to_anonymous :
  forall rt env req st kv c,
    method req = POST -> target req = Messages ->
    x_api_key req = Some (valid_key env) ->
    get_json req = Returns (JObj kv) -> Py.lookup "content" kv = Some c ->
    exists m,
      ds_messages (snd (handle_request rt env req st)) = ds_messages st ++ [m] /\
      content (fst (handle_request rt env req st)) = message_posted m /\
      status (fst (handle_request rt env req st)) = 201 /\
      m_content m = c /\
      (Py.lookup "author" kv = None -> m_author m = JStr "Anonymous") /\
      (forall a, Py.lookup "author" kv = Some a -> m_author m = a).
Proof.
  intros rt env req st kv c Hm Ht Hk Hj Hc.
  rewrite (post_message_created rt env req st kv c Hm Ht Hk Hj Hc).
  eexists. split; [reflexivity|]. cbn.
  repeat split; [intros -> | intros a ->]; reflexivity.
Qed.

Lemma author_defaults_to_anonymous_witness :
  let req := Sample.post_message Sample.key
               (Returns (JObj [("content", JStr "hello")])) Sample.t0 in
  exists m,
    ds_messages (snd (handle_request Sample.rt0 Sample.env0 req data_store)) = [] ++ [m] /\
    content (fst (handle_request Sample.rt0 Sample.env0 req data_store)) = message_posted m /\
    status (fst (handle_request Sample.rt0 Sample.env0 req data_store)) = 201 /\
    m_content m = JStr "hello" /\
    (Py.lookup "author" [("content", JStr "hello")] = None ->
     m_author m = JStr "Anonymous") /\
    (forall a, Py.lookup "author" [("content", JStr "hello")] = Some a ->
     m_author m = a).
Proof.
  intros req.
  apply (author_defaults_to_anonymous Sample.rt0 Sample.env0 req data_store
           [("content", JStr "hello")] (JStr "hello")); reflexivity.
Defined.

Example author_given_is_kept :
  map m_author (ds_messages (run Sample.rt0 Sample.env0
    [Sample.post_message Sample.key
       (Returns (JObj [("content", JStr "one")])) Sample.t0;
     Sample.post_message Sample.key
       (Returns (JObj [("content", JStr "two"); ("author", JStr "Bob")])) Sample.t1]
    data_store)) = [JStr "Anonymous"; JStr "Bob"].
Proof. reflexivity. Qed.

(* ------------------------------------------------------------------ *)
(** ** Comprehensions and rendering *)
(* ------------------------------------------------------------------ *)

Lemma comprehension_total {A B} (f : A -> result B) (l : list A) :
  Forall (fun a => exists b, f a = Ok b) l ->
  exists bs, comprehension f l = Ok bs /\ Forall2 (fun a b => f a = Ok b) l bs.
Proof.
  induction 1 as [|a l [b Hb] _ [bs [IH1 IH2]]]; cbn [comprehension].
  - exists []. split; constructor.
  - exists (b :: bs). rewrite Hb, IH1. split; [reflexivity|].
    constructor; assumption.
Qed.

Lemma comprehension_if_total {A} (p : A -> result bool) (d : A -> bool) (l : list A) :
  Forall (fun a => p a = Ok (d a)) l ->
  comprehension_if p l = Ok (filter d l).
Proof.
  induction 1 as [|a l Ha _ IH]; cbn [comprehension_if filter]; [reflexivity|].
  rewrite Ha, IH. cbn [rbind]. destruct (d a); reflexivity.
Qed.

Lemma comprehension_raises {A B} (f : A -> result B) (l : list A) a e :
  In a l -> f a = Raise e -> exists e', comprehension f l = Raise e'.
Proof.
  induction l as [|x l IH]; intros Hin Hf; [contradiction|].
  cbn [comprehension]. destruct (f x) as [b|e0] eqn:Hx; cbn [rbind]; [|eauto].
  destruct Hin as [->|Hin]; [congruence|].
  destruct (IH Hin Hf) as [e' ->]. cbn [rbind]. eauto.
Qed.

Lemma initial_nonempty_str rt x :
  nonempty_str x -> exists a, initial rt x = Ok a.
Proof. intros [c [s ->]]. eexists. reflexivity. Qed.

Lemma respond_cases rt p code st :
  respond rt p code st =
  if plain p || renders rt p then (Ok (Some (Html p, code)), st)
  else (Raise TemplateError, st).
Proof.
  unfold respond, render_template_string, bind, lift, ret.
  destruct (plain p || renders rt p); reflexivity.
Qed.

(** A GET whose view, on the store it is given, builds the source [p]
    without raising and hands it to the engine. *)
Lemma dispatch_respond rt env req st p :
  method req = GET -> target req <> NoRoute ->
  view_of rt env (target req) req st = respond rt p 200 st ->
  dispatch_request rt env req st = (respond_reply rt p 200, st).
Proof.
  intros Hm Ht Hv. unfold dispatch_request, respond_reply. rewrite Hm.
  rewrite respond_cases in Hv.
  destruct (target req); try contradiction; cbn [allowed negb];
    rewrite Hv; destruct (plain p || renders rt p); reflexivity.
Qed.

Lemma handle_respond rt env req st p :
  method req = GET -> target req <> NoRoute ->
  view_of rt env (target req) req (snd (log_request st))
    = respond rt p 200 (snd (log_request st)) ->
  rendered rt p (fst (handle_request rt env req st)) /\
  snd (handle_request rt env req st) = snd (log_request st).
Proof.
  intros Hm Ht Hv. unfold handle_request.
  rewrite (dispatch_respond rt env req _ p Hm Ht Hv).
  unfold respond_reply, rendered.
  destruct (plain p || renders rt p); cbn; auto.
Qed.

(* ------------------------------------------------------------------ *)
(** ** Listing messages *)
(* ------------------------------------------------------------------ *)

Lemma render_message_card_shown rt m c :
  render_message_card rt m = Ok c -> shown_as m c.
Proof.
  unfold render_message_card. destruct (initial rt (m_author m)); cbn [rbind];
    [|discriminate].
  intros H. injection H as <-. repeat split.
Qed.

(** The listing on a store whose authors all have a first character: a GET
    on /api/messages that passes the key check hands the engine the source
    of the messages page, whose cards show the stored messages in reverse
    insertion order; the answer is that page with 200 when the engine
    produces it and 500 when it raises; the messages list is left as it
    was. *)
Lemma messages_listed_newest_first rt env req st :
  method req = GET -> target req = Messages ->
  x_api_key req = Some (valid_key env) ->
  Forall (fun m => nonempty_str (m_author m)) (ds_messages st) ->
  exists p,
    newest_first_page st p /\
    rendered rt p (fst (handle_request rt env req st)) /\
    ds_messages (snd (handle_request rt env req st)) = ds_messages st.
Proof.
  intros Hm Ht Hk Hauth.
  assert (Hall : Forall (fun m => exists c, render_message_card rt m = Ok c)
                        (rev (ds_messages st))).
  { apply Forall_rev. revert Hauth. apply Forall_impl. intros m Hne.
    destruct (initial_nonempty_str rt _ Hne) as [a Ha].
    unfold render_message_card. rewrite Ha. eexists. reflexivity. }
  destruct (comprehension_total _ _ Hall) as [cards [Hcards Hshown]].
  exists (MessagesPage (Py.len (ds_messages st)) cards). split.
  - exists cards. split; [reflexivity|]. revert Hshown. apply Forall2_impl.
    apply render_message_card_shown.
  - destruct (handle_respond rt env req st
                (MessagesPage (Py.len (ds_messages st)) cards) Hm) as [H1 H2].
    + rewrite Ht. discriminate.
    + rewrite Ht. cbn [view_of]. unfold messages, require_api_key.
      rewrite (good_key_passes _ _ Hk). unfold messages_view. rewrite Hm.
      unfold bind, read, lift. cbn [log_request snd ds_messages].
      rewrite Hcards. reflexivity.
    + split; [exact H1|]. rewrite H2. reflexivity.
Qed.

Example two_messages_listing :
  content (fst (handle_request Sample.rt0 Sample.env0 (Sample.get_messages Sample.key)
    (run Sample.rt0 Sample.env0
       [Sample.post_message Sample.key
          (Returns (JObj [("content", JStr "one")])) Sample.t0;
        Sample.post_message Sample.key
          (Returns (JObj [("content", JStr "two"); ("author", JStr "Bob")])) Sample.t1]
       data_store)))
  = Html (MessagesPage 2
      [mkMessageCard "B" (JStr "Bob") "2024-01-01 10:00:05" (JStr "two");
       mkMessageCard "A" (JStr "Anonymous") "2024-01-01 10:00:00" (JStr "one")]).
Proof. reflexivity. Qed.

(** C4.  The listing is meant to show every stored message, newest first.
    It breaks on a store the service reaches by itself: a POST whose
    'author' is the empty string is accepted (201) and stored; from then on
    the avatar expression [msg['author'][0]] raises [IndexError] inside the
    comprehension, and a GET on /api/messages with the right key is
    answered 500 in place of the page. *)
Theorem listing_fails_on_empty_author :
  let post := Sample.post_message Sample.key
                (Returns (JObj [("content", JStr "hi"); ("author", JStr "")]))
                Sample.t0 in
  let st := snd (handle_request Sample.rt0 Sample.env0 post data_store) in
  let out := handle_request Sample.rt0 Sample.env0 (Sample.get_messages Sample.key) st in
  status (fst (handle_request Sample.rt0 Sample.env0 post data_store)) = 201 /\
  ds_messages st = [mkMessage 1 (JStr "hi") (JStr "") Sample.t0] /\
  messages_view Sample.rt0 (Sample.get_messages Sample.key) st = (Raise IndexError, st) /\
  status (fst out) = 500 /\
  content (fst out) = fst internal_error /\
  ~ lists_newest_first (fst out) st.
Proof.
  repeat split.
  intros [cards [H _]]. vm_compute in H. discriminate H.
Qed.

(* ------------------------------------------------------------------ *)
(** ** Searching users by name *)
(* ------------------------------------------------------------------ *)

Lemma matches_name_contains rt q u :
  matches rt (str_lower rt q) u = true <-> name_contains rt q u.
Proof.
  unfold matches, name_contains. split.
  - destruct (u_name u); try discriminate.
    intros H. eexists. split; [reflexivity|].
    apply PyStrFacts.contains_occurs, H.
  - intros [n [-> H]]. apply PyStrFacts.contains_occurs, H.
Qed.

Lemma filter_selects rt q l :
  selects (name_contains rt q) l (filter (matches rt (str_lower rt q)) l).
Proof.
  induction l as [|u l IH]; cbn [filter]; [constructor|].
  destruct (matches rt (str_lower rt q) u) eqn:E.
  - apply sel_keep; [apply matches_name_contains, E | exact IH].
  - apply sel_drop; [|exact IH].
    intros H. apply matches_name_contains in H. congruence.
Qed.

Lemma selects_none P l r :
  selects P l r -> (forall u, In u l -> ~ P u) -> r = [].
Proof.
  induction 1 as [|u l r Hu _ _|u l r _ _ IH]; intros Hno; auto.
  - exfalso. apply (Hno u); [left; reflexivity | exact Hu].
  - apply IH. intros u' Hin. apply Hno. right. exact Hin.
Qed.

(** A selection keeps nothing else and loses nothing that satisfies [P]. *)
Lemma selects_In P l r :
  selects P l r -> forall u, In u r <-> In u l /\ P u.
Proof.
  induction 1 as [|u l r Hu _ IH|u l r Hu _ IH]; intros v; cbn [In].
  - tauto.
  - rewrite IH. split; [intros [<-|[? ?]]; auto | tauto].
  - rewrite IH. split; [tauto|]. intros [[<-|?] ?]; [contradiction|tauto].
Qed.

Lemma name_matches_string rt query u :
  (exists n, u_name u = JStr n) -> name_matches rt query u = Ok (matches rt query u).
Proof. intros [n H]. unfold name_matches, matches. rewrite H. reflexivity. Qed.

Lemma render_result_card_listed rt u c :
  render_result_card rt u = Ok c -> listed_as u c.
Proof.
  unfold render_result_card. destruct (initial rt (u_name u)); cbn [rbind];
    [|discriminate].
  intros H. injection H as <-. split; reflexivity.
Qed.

Lemma matching_name_has_initial rt query u :
  PyStr.nonempty query = true -> matches rt query u = true ->
  exists c, render_result_card rt u = Ok c.
Proof.
  unfold matches, render_result_card. intros Hq.
  destruct (u_name u) as [| | | |n| |] eqn:E; try discriminate.
  intros Hc. apply (PyStrFacts.contains_nonempty _ _ Hq) in Hc.
  rewrite lower_nonempty in Hc.
  destruct n as [[|c n]]; [discriminate|]. eexists. reflexivity.
Qed.

(** The search view on a store whose names are strings. *)
Lemma search_results rt env req st q :
  method req = GET -> target req = Search ->
  arg_q req = Some q -> q <> "" -> names_are_strings st ->
  exists cards,
    let results := filter (matches rt (str_lower rt q)) (ds_users st) in
    let p := SearchResultsPage (str_lower rt q) (Py.len results) cards in
    Forall2 listed_as results cards /\
    rendered rt p (fst (handle_request rt env req st)) /\
    snd (handle_request rt env req st) = snd (log_request st).
Proof.
  intros Hm Ht Hq Hne Hstr.
  assert (Hquery : PyStr.nonempty (str_lower rt q) = true).
  { rewrite lower_nonempty. apply PyStrFacts.nonempty_iff, Hne. }
  assert (Hcards : Forall (fun u => exists c, render_result_card rt u = Ok c)
                          (filter (matches rt (str_lower rt q)) (ds_users st))).
  { apply Forall_forall. intros u Hin. apply filter_In in Hin.
    apply (matching_name_has_initial _ _ _ Hquery), Hin. }
  destruct (comprehension_total _ _ Hcards) as [cards [Hc1 Hc2]].
  exists cards. cbn zeta. split.
  - revert Hc2. apply Forall2_impl. apply render_result_card_listed.
  - apply (handle_respond rt env req st _ Hm); [rewrite Ht; discriminate|].
    rewrite Ht. cbn [view_of]. unfold search. rewrite Hq, Hquery.
    unfold bind, read, lift. cbn [negb log_request snd ds_users].
    rewrite (comprehension_if_total _ (matches rt (str_lower rt q))).
    + rewrite Hc1. reflexivity.
    + revert Hstr. apply Forall_impl. apply name_matches_string.
Qed.

(** C7, as the code has it.  On a store whose user names are all strings, a
    search with a non-empty query [q] hands the engine the source of the
    results page, whose cards are those of exactly the users whose name
    contains [q] when both are put in lower case, in the order of the users
    list; when no name matches, the source has no card and the count 0.
    The answer is that page with 200 when the engine produces it, and 500
    when the engine raises on the source, into which the query, the names
    and the emails are spliced.  Without a query, or with an empty one, the
    answer is the prompt page and no user is examined, whatever the store
    holds.  The users list is never written. *)
Theorem search_by_name :
  forall rt env req st,
    method req = GET -> target req = Search ->
    let out := handle_request rt env req st in
    (forall q, arg_q req = Some q -> q <> "" -> names_are_strings st ->
       exists p, results_page rt q st p /\ rendered rt p (fst out) /\
                 ds_users (snd out) = ds_users st) /\
    (forall q, arg_q req = Some q -> q <> "" -> names_are_strings st ->
       (forall u, In u (ds_users st) -> ~ name_contains rt q u) ->
       rendered rt (SearchResultsPage (str_lower rt q) 0 []) (fst out)) /\
    (arg_q req = None \/ arg_q req = Some "" ->
       status (fst out) = 200 /\ content (fst out) = Html SearchPromptPage).
Proof.
  intros rt env req st Hm Ht out. subst out. split; [|split].
  - intros q Hq Hne Hstr.
    destruct (search_results rt env req st q Hm Ht Hq Hne Hstr) as [cards [Hl [Hr Hs]]].
    cbn zeta in Hl, Hr. eexists. split; [|split; [exact Hr|rewrite Hs; reflexivity]].
    eexists. exists cards. split; [reflexivity|].
    split; [apply filter_selects | exact Hl].
  - intros q Hq Hne Hstr Hno.
    destruct (search_results rt env req st q Hm Ht Hq Hne Hstr) as [cards [Hl [Hr _]]].
    cbn zeta in Hl, Hr.
    rewrite (selects_none _ _ _ (filter_selects rt q (ds_users st)) Hno) in *.
    inversion Hl; subst. exact Hr.
  - intros Hq.
    assert (Hquery : str_lower rt (match arg_q req with Some q => q | None => "" end) = "")
      by (destruct Hq as [-> | ->]; apply lower_of_empty).
    destruct (handle_respond rt env req st SearchPromptPage Hm) as [Hr _].
    + rewrite Ht. discriminate.
    + rewrite Ht. cbn [view_of]. unfold search. rewrite Hquery. reflexivity.
    + exact Hr.
Qed.

Lemma search_by_name_witness :
  let st := run Sample.rt0 Sample.env0
              [Sample.post_user (Returns Sample.alice) Sample.t0;
               Sample.post_user (Returns Sample.alice2) Sample.t0;
               Sample.post_user (Returns Sample.bob) Sample.t0] data_store in
  let found := handle_request Sample.rt0 Sample.env0 (Sample.get_search (Some "ali")) st in
  let none := handle_request Sample.rt0 Sample.env0 (Sample.get_search (Some "zed")) st in
  let prompt := handle_request Sample.rt0 Sample.env0 (Sample.get_search None) st in
  (exists p, results_page Sample.rt0 "ali" st p /\ rendered Sample.rt0 p (fst found) /\
             ds_users (snd found) = ds_users st) /\
  rendered Sample.rt0 (SearchResultsPage "zed" 0 []) (fst none) /\
  (status (fst prompt) = 200 /\ content (fst prompt) = Html SearchPromptPage).
Proof.
  intros st.
  assert (Hstr : names_are_strings st)
    by (repeat constructor; eexists; reflexivity).
  split; [|split].
  - apply (proj1 (search_by_name Sample.rt0 Sample.env0 (Sample.get_search (Some "ali")) st
                    eq_refl eq_refl) "ali" eq_refl); [discriminate | exact Hstr].
  - apply (proj1 (proj2 (search_by_name Sample.rt0 Sample.env0
                           (Sample.get_search (Some "zed")) st
                           eq_refl eq_refl)) "zed" eq_refl); [discriminate | exact Hstr |].
    intros u Hin Hc. apply matches_name_contains in Hc.
    cbn in Hin. decompose [or] Hin; subst; try discriminate Hc; contradiction.
  - apply (proj2 (proj2 (search_by_name Sample.rt0 Sample.env0 (Sample.get_search None) st
                    eq_refl eq_refl))). left. reflexivity.
Defined.

Example search_ali :
  content (fst (handle_request Sample.rt0 Sample.env0 (Sample.get_search (Some "ali"))
    (run Sample.rt0 Sample.env0
       [Sample.post_user (Returns Sample.alice) Sample.t0;
        Sample.post_user (Returns Sample.alice2) Sample.t0;
        Sample.post_user (Returns Sample.bob) Sample.t0] data_store)))
  = Html (SearchResultsPage "ali" 2
      [mkResultCard "A" (JStr "Alice") (JStr "a@x.com");
       mkResultCard "A" (JStr "alice2") (JStr "a2@x.com")]).
Proof. reflexivity. Qed.

(** C7, as the claim states it, fails twice.  On a store the service
    reaches by itself: a POST whose 'name' is the number 5 is accepted (201)
    and stored; a search then raises [AttributeError] at
    [u['name'].lower()] and is answered 500.  And on the initial store: the
    query [{{] is spliced into the template source, the engine raises on it
    and the search is answered 500, where the claim has an empty result. *)
Lemma search_counterexample :
  let post := Sample.post_user
                (Returns (JObj [("name", JInt 5); ("email", JStr "e@x.com")]))
                Sample.t0 in
  let st := snd (handle_request Sample.rt0 Sample.env0 post data_store) in
  let out := handle_request Sample.rt0 Sample.env0 (Sample.get_search (Some "a")) st in
  let out2 := handle_request Sample.rt0 Sample.env0 (Sample.get_search (Some "{{"))
                data_store in
  status (fst (handle_request Sample.rt0 Sample.env0 post data_store)) = 201 /\
  search Sample.rt0 (Sample.get_search (Some "a")) st = (Raise AttributeError, st) /\
  status (fst out) = 500 /\
  ~ search_finds Sample.rt0 "a" (fst out) st /\
  search Sample.rt0 (Sample.get_search (Some "{{")) data_store
    = (Raise TemplateError, data_store) /\
  status (fst out2) = 500 /\
  ~ search_finds Sample.rt0 "{{" (fst out2) data_store.
Proof.
  repeat split.
  - intros [p [_ [H _]]]. vm_compute in H. discriminate H.
  - intros [p [_ [H _]]]. vm_compute in H. discriminate H.
Qed.

(* ------------------------------------------------------------------ *)
(** ** Bodies that are not objects *)
(* ------------------------------------------------------------------ *)

(** The validation line applies [in] to whatever the body decodes to.  A
    list or a string is tested for an element or a substring and is
    rejected with 400 like an object without the keys; a number or [true]
    makes [in] raise [TypeError], which the request cycle turns into 500.
    The users list is untouched in every case. *)
Example post_user_list_body :
  let out := handle_request Sample.rt0 Sample.env0
               (Sample.post_user (Returns (JArr [JInt 1; JInt 2])) Sample.t0)
               data_store in
  status (fst out) = 400 /\ ds_users (snd out) = [].
Proof. split; reflexivity. Qed.

Example post_user_number_body :
  let out := handle_request Sample.rt0 Sample.env0
               (Sample.post_user (Returns (JInt 5)) Sample.t0) data_store in
  status (fst out) = 500 /\ ds_users (snd out) = [].
Proof. split; reflexivity. Qed.

(* ================================================================== *)
(** * Further properties of the service *)
(* ================================================================== *)

(** [response.headers.get(k)]: the value of the first entry under the
    name. *)
Fixpoint get_header (rt : runtime) (k : str) (h : list (str * str)) : option str :=
  match h with
  | [] => None
  | (k', v) :: h' => if same_header rt k k' then Some v else get_header rt k h'
  end.

(** The entries a response carries under the name [k], in order. *)
Definition under (rt : runtime) (k : str) (h : list (str * str)) : list (str * str) :=
  filter (fun e => same_header rt k (fst e)) h.

(** The six assignments of [add_security_headers], in source order. *)
Definition security_headers : list (str * str) :=
  [("X-Content-Type-Options", "nosniff");
   ("X-Frame-Options", "DENY");
   ("X-XSS-Protection", "1; mode=block");
   ("Access-Control-Allow-Origin", "*");
   ("Access-Control-Allow-Methods", "GET, POST, PUT, DELETE, OPTIONS");
   ("Access-Control-Allow-Headers", "Content-Type, X-API-Key")].

(** The card of the users page shows this user. *)
Definition user_listed (u : user) (c : user_card) : Prop :=
  uc_name c = u_name u /\ uc_email c = u_email u /\ uc_id c = u_id u /\
  uc_date c = PyStr.slice_to 10 (u_created_at u).

(** Every stored user has an id at least as large as its position, counted
    from one. *)
Definition ids_cover_positions (l : list user) : Prop :=
  forall i u, nth_error l i = Some u -> Z.of_nat i + 1 <= u_id u.

(** The request is one that creates a user: [get_json()] returns an object
    with both keys. *)
Definition creates_user (req : request) : Prop :=
  exists kv name email,
    get_json req = Returns (JObj kv) /\
    Py.lookup "name" kv = Some name /\ Py.lookup "email" kv = Some email.

(** [id_bounds n l]: each user of [l] has an id between its position,
    counted from one, and [n]; and [l] has at most [n] users. *)
Definition id_bounds (n : nat) (l : list user) : Prop :=
  ids_cover_positions l /\ (List.length l <= n)%nat /\
  Forall (fun u => u_id u <= Z.of_nat n) l.

Definition user_ids (st : store) : list Z := map u_id (ds_users st).

Definition content_required : body :=
  Json (JObj [("error", JStr "Content is required")]).

(* ------------------------------------------------------------------ *)
(** ** The response headers *)
(* ------------------------------------------------------------------ *)

Lemma same_header_refl rt k : same_header rt k k = true.
Proof. apply PyStrFacts.eqb_refl. Qed.

Lemma same_header_sym rt k k' : same_header rt k k' = same_header rt k' k.
Proof.
  unfold same_header.
  destruct (PyStrFacts.eqb_spec (str_lower rt k') (str_lower rt k)) as [E|E].
  - rewrite E. symmetry. apply PyStrFacts.eqb_refl.
  - symmetry. apply PyStrFacts.eqb_neq. congruence.
Qed.

(** Two names that differ do not share an entry. *)
Lemma same_header_apart rt k k' k0 :
  same_header rt k k' = false -> same_header rt k k0 = true ->
  same_header rt k' k0 = false.
Proof.
  unfold same_header. intros Hkk' Hk0.
  apply PyStrFacts.eqb_neq in Hkk'. apply PyStrFacts.eqb_eq in Hk0.
  apply PyStrFacts.eqb_neq. congruence.
Qed.

Lemma under_without rt k h :
  under rt k (filter (fun e => negb (same_header rt k (fst e))) h) = [].
Proof.
  unfold under. induction h as [|e h IH]; cbn [filter]; [reflexivity|].
  destruct (same_header rt k (fst e)) eqn:E; cbn [negb filter]; [exact IH|].
  rewrite E. exact IH.
Qed.

Lemma under_without_other rt k k' h :
  same_header rt k k' = false ->
  under rt k' (filter (fun e => negb (same_header rt k (fst e))) h) = under rt k' h.
Proof.
  intros Hne. unfold under. induction h as [|e h IH]; cbn [filter]; [reflexivity|].
  destruct (same_header rt k (fst e)) eqn:E; cbn [negb filter].
  - rewrite (same_header_apart rt k k' _ Hne E). exact IH.
  - rewrite IH. reflexivity.
Qed.

(** After [headers[k] = v] the response has one entry under [k], the new
    one ... *)
Lemma under_set_header rt k v h : under rt k (set_header rt k v h) = [(k, v)].
Proof.
  induction h as [|[k' v'] h IH]; cbn [set_header].
  - unfold under. cbn [filter fst]. rewrite same_header_refl. reflexivity.
  - destruct (same_header rt k k') eqn:E.
    + unfold under. cbn [filter fst]. rewrite same_header_refl.
      f_equal. apply under_without.
    + unfold under. cbn [filter fst]. rewrite E. exact IH.
Qed.

(** ... and the entries under every other name are those it had. *)
Lemma under_set_header_other rt k k' v h :
  same_header rt k k' = false ->
  under rt k' (set_header rt k v h) = under rt k' h.
Proof.
  intros Hne.
  assert (Hne' : same_header rt k' k = false)
    by (rewrite same_header_sym; exact Hne).
  induction h as [|[k0 v0] h IH]; cbn [set_header].
  - unfold under. cbn [filter fst]. rewrite Hne'. reflexivity.
  - destruct (same_header rt k k0) eqn:E.
    + unfold under at 1 2. cbn [filter fst].
      rewrite Hne', (same_header_apart rt k k' _ Hne E).
      apply under_without_other, Hne.
    + unfold under. cbn [filter fst].
      destruct (same_header rt k' k0); [f_equal|]; exact IH.
Qed.

Lemma get_header_under rt k h :
  get_header rt k h = option_map snd (hd_error (under rt k h)).
Proof.
  unfold under. induction h as [|[k' v] h IH]; cbn [get_header filter fst];
    [reflexivity|].
  destruct (same_header rt k k'); [reflexivity | exact IH].
Qed.

(** Two ASCII names are the same header when their lower-case forms are
    equal. *)
Lemma same_header_ascii rt k k' :
  PyStr.is_ascii k = true -> PyStr.is_ascii k' = true ->
  same_header rt k k' = PyStr.eqb (PyStr.ascii_lower k') (PyStr.ascii_lower k).
Proof.
  intros Hk Hk'. unfold same_header.
  rewrite (lower_ascii rt k Hk), (lower_ascii rt k' Hk'). reflexivity.
Qed.

(** X1.  After the hook, under each of its six names (compared without
    regard to case) the response carries exactly one entry, the hook's,
    whatever it carried under that name before; the entries under every
    other name are kept as they were; status and body are not touched. *)
Theorem add_security_headers_sets_six :
  forall rt r,
    status (add_security_headers rt r) = status r /\
    content (add_security_headers rt r) = content r /\
    (forall k v, In (k, v) security_headers ->
       under rt k (headers (add_security_headers rt r)) = [(k, v)] /\
       get_header rt k (headers (add_security_headers rt r)) = Some v) /\
    (forall k',
       (forall k, In k (map fst security_headers) -> same_header rt k k' = false) ->
       under rt k' (headers (add_security_headers rt r)) = under rt k' (headers r)).
Proof.
  intros rt r. split; [reflexivity|]. split; [reflexivity|]. split.
  - intros k v Hin.
    assert (Hu : under rt k (headers (add_security_headers rt r)) = [(k, v)]).
    { unfold add_security_headers. cbn [headers]. cbn in Hin.
      repeat (destruct Hin as [Hin|Hin];
              [injection Hin as <- <-;
               repeat (rewrite under_set_header_other
                         by (rewrite same_header_ascii by reflexivity; reflexivity));
               apply under_set_header |]).
      contradiction. }
    split; [exact Hu|]. rewrite get_header_under, Hu. reflexivity.
  - intros k' Hk'. unfold add_security_headers. cbn [headers].
    repeat rewrite under_set_header_other by (apply Hk'; cbn; tauto).
    reflexivity.
Qed.

Lemma add_security_headers_sets_six_witness :
  let r := mkResponse 200 Default
             [("x-frame-options", "SAMEORIGIN"); ("Content-Type", "text/html");
              ("X-FRAME-OPTIONS", "ALLOW")] in
  (under Sample.rt0 "X-Frame-Options" (headers (add_security_headers Sample.rt0 r))
     = [("X-Frame-Options", "DENY")] /\
   get_header Sample.rt0 "X-Frame-Options" (headers (add_security_headers Sample.rt0 r))
     = Some "DENY") /\
  under Sample.rt0 "content-type" (headers (add_security_headers Sample.rt0 r))
    = [("Content-Type", "text/html")].
Proof.
  intros r.
  destruct (add_security_headers_sets_six Sample.rt0 r) as [_ [_ [Hset Hkeep]]]. split.
  - apply Hset. cbn. tauto.
  - rewrite Hkeep; [reflexivity|]. cbn.
    intros k H. decompose [or] H; subst; try reflexivity; contradiction.
Defined.

(** Every response the service sends, whatever the route, the method and
    the outcome, carries exactly the six headers. *)
Lemma every_response_has_security_headers rt env req st :
  headers (fst (handle_request rt env req st)) = security_headers.
Proof.
  unfold handle_request.
  destruct (dispatch_request rt env req (snd (log_request st))) as [[b c] st2].
  cbn [fst]. unfold add_security_headers. cbn [headers].
  repeat (cbn [set_header]; rewrite ?same_header_ascii by reflexivity;
          match goal with
          | |- context [PyStr.eqb ?a ?b] =>
              let v := eval vm_compute in (PyStr.eqb a b) in
              change (PyStr.eqb a b) with v
          end; cbv iota).
  reflexivity.
Qed.
(* ------------------------------------------------------------------ *)
(** ** Which requests can write which list *)
(* ------------------------------------------------------------------ *)

Lemma users_keeps_messages rt req st :
  ds_messages (snd (users rt req st)) = ds_messages st.
Proof. unfold users. run_view; reflexivity. Qed.

Lemma users_writes_on_post rt req st :
  method req = POST \/ ds_users (snd (users rt req st)) = ds_users st.
Proof.
  destruct (method req) eqn:Hm; auto; right; unfold users; rewrite Hm;
    run_view; reflexivity.
Qed.

Lemma user_detail_keeps_messages rt user_id req st :
  ds_messages (snd (user_detail rt user_id req st)) = ds_messages st.
Proof. unfold user_detail. run_view; reflexivity. Qed.

Lemma user_detail_writes_on_delete rt user_id req st :
  method req = DELETE \/ ds_users (snd (user_detail rt user_id req st)) = ds_users st.
Proof.
  destruct (method req) eqn:Hm; auto; right; unfold user_detail;
    unfold respond, bind, read; cbn [ds_users];
    destruct (find _ _); rewrite ?Hm; run_view; reflexivity.
Qed.

Lemma messages_view_keeps_users rt req st :
  ds_users (snd (messages_view rt req st)) = ds_users st.
Proof. unfold messages_view. run_view; reflexivity. Qed.

Lemma messages_view_writes_on_post rt req st :
  method req = POST \/ ds_messages (snd (messages_view rt req st)) = ds_messages st.
Proof.
  destruct (method req) eqn:Hm; auto; right; unfold messages_view; rewrite Hm;
    run_view; reflexivity.
Qed.

Lemma search_keeps_store rt req st : snd (search rt req st) = st.
Proof. unfold search. run_view; reflexivity. Qed.

Lemma respond_store rt p code s : snd (respond rt p code s) = s.
Proof. rewrite respond_cases. destruct (plain p || renders rt p); reflexivity. Qed.

Lemma home_keeps_store rt req s : snd (home rt req s) = s.
Proof. unfold home, bind, read. apply respond_store. Qed.

Lemma health_check_keeps_store rt env req s : snd (health_check rt env req s) = s.
Proof. unfold health_check. apply respond_store. Qed.

Lemma get_stats_keeps_store rt env req s : snd (get_stats rt env req s) = s.
Proof. unfold get_stats, bind, read. apply respond_store. Qed.

(** The store after the view, read off the result of [dispatch_request]. *)
Lemma dispatch_request_store rt env req st :
  snd (dispatch_request rt env req st) = st \/
  snd (dispatch_request rt env req st) = snd (view_of rt env (target req) req st).
Proof.
  unfold dispatch_request.
  destruct (target req); cbn [snd]; auto;
    (destruct (negb _); cbn [snd]; auto;
     destruct (method req); cbn [snd]; auto;
     destruct (view_of _ _ _ _ _) as [[[?|]|] ?]; cbn [snd]; auto).
Qed.

(** X2.  The messages list is written by no request other than a POST on
    /api/messages that carries the configured key; the users list by no
    request other than a POST on /api/users or a DELETE on /api/users/{id}. *)
Theorem writers_of_the_lists :
  forall rt env req st,
    let st' := snd (handle_request rt env req st) in
    ((target req = Messages /\ method req = POST /\
      x_api_key req = Some (valid_key env)) \/
     ds_messages st' = ds_messages st) /\
    ((target req = Users /\ method req = POST) \/
     (exists user_id, target req = UserDetail user_id /\ method req = DELETE) \/
     ds_users st' = ds_users st).
Proof.
  intros rt env req st st'. subst st'. rewrite handle_request_store.
  set (st1 := snd (log_request st)).
  assert (Hm1 : ds_messages st1 = ds_messages st) by reflexivity.
  assert (Hu1 : ds_users st1 = ds_users st) by reflexivity.
  destruct (dispatch_request_store rt env req st1) as [-> | ->];
    [split; right; [|right]; assumption|].
  rewrite <- Hm1, <- Hu1. clear Hm1 Hu1. generalize st1 as s. clear st st1. intros s.
  destruct (target req) eqn:Ht; cbn [view_of].
  - rewrite home_keeps_store. split; right; [|right]; reflexivity.
  - rewrite health_check_keeps_store. split; right; [|right]; reflexivity.
  - rewrite get_stats_keeps_store. split; right; [|right]; reflexivity.
  - split; [right; apply users_keeps_messages|].
    destruct (users_writes_on_post rt req s) as [H|H]; auto.
  - split; [right; apply user_detail_keeps_messages|].
    destruct (user_detail_writes_on_delete rt user_id req s) as [H|H]; eauto.
  - unfold messages, require_api_key.
    destruct (key_differs _ _) eqn:Hk; cbn [ret snd].
    + split; right; [|right]; reflexivity.
    + split; [|right; right; apply messages_view_keeps_users].
      destruct (messages_view_writes_on_post rt req s) as [H|H]; auto.
      left. repeat split; auto.
      unfold key_differs in Hk. destruct (x_api_key req) as [k|]; [|discriminate].
      apply negb_false_iff, PyStrFacts.eqb_eq in Hk. rewrite Hk. reflexivity.
  - rewrite search_keeps_store. split; right; [|right]; reflexivity.
  - split; right; [|right]; reflexivity.
Qed.

(* ------------------------------------------------------------------ *)
(** ** Messages are only ever appended *)
(* ------------------------------------------------------------------ *)

Lemma effect_appends_messages st st' :
  effect st st' -> exists l, ds_messages st' = ds_messages st ++ l.
Proof.
  destruct 1 as [|u Hu|m Hm|user_id]; cbn [ds_messages];
    [exists [] | exists [] | exists [m] | exists []]; rewrite ?app_nil_r; reflexivity.
Qed.

Lemma messages_append_only_run rt env reqs : forall st,
  exists l, ds_messages (run rt env reqs st) = ds_messages st ++ l.
Proof.
  induction reqs as [|req reqs IH]; intros st; cbn [run].
  - exists []. rewrite app_nil_r. reflexivity.
  - destruct (IH (snd (handle_request rt env req st))) as [l2 H2].
    rewrite handle_request_store in H2 at 2.
    destruct (effect_appends_messages _ _ (dispatch_request_effect rt env req
                (snd (log_request st)))) as [l1 H1].
    exists (l1 ++ l2). rewrite H2, H1, app_assoc. reflexivity.
Qed.

(** X3.  Whatever requests arrive, the messages stored before them are still
    there afterwards, unchanged and in the same places: the new list is the
    old one followed by the messages posted since, and it is never
    shorter. *)
Theorem messages_append_only :
  forall rt env reqs st,
    (exists l, ds_messages (run rt env reqs st) = ds_messages st ++ l) /\
    (List.length (ds_messages st) <= List.length (ds_messages (run rt env reqs st)))%nat.
Proof.
  intros rt env reqs st. destruct (messages_append_only_run rt env reqs st) as [l Hl].
  split; [exists l; exact Hl|]. rewrite Hl, length_app. lia.
Qed.

(* ------------------------------------------------------------------ *)
(** ** Deleting a stored user *)
(* ------------------------------------------------------------------ *)

Lemma find_after_filter user_id l :
  find (fun u => u_id u =? user_id)
       (filter (fun u => negb (u_id u =? user_id)) l) = None.
Proof.
  apply find_unknown_id. intros u Hin. apply filter_In in Hin.
  destruct Hin as [_ H]. apply negb_true_iff, Z.eqb_neq in H. exact H.
Qed.

(** X4.  A DELETE whose id is carried by a stored user is answered 200 with the
    confirmation; it removes every user with that id and nothing else, the
    others keeping their order; from then on the id is unknown, so a GET or
    a second DELETE on it is answered 404. *)
Theorem delete_removes_every_match :
  forall rt env req st user_id u,
    method req = DELETE -> target req = UserDetail user_id ->
    In u (ds_users st) -> u_id u = user_id ->
    let out := handle_request rt env req st in
    status (fst out) = 200 /\ content (fst out) = user_deleted /\
    ds_users (snd out) =
      filter (fun v => negb (u_id v =? user_id)) (ds_users st) /\
    (forall v, In v (ds_users (snd out)) <-> In v (ds_users st) /\ u_id v <> user_id) /\
    ds_messages (snd out) = ds_messages st /\
    (forall req2,
       target req2 = UserDetail user_id ->
       method req2 = GET \/ method req2 = DELETE ->
       status (fst (handle_request rt env req2 (snd out))) = 404 /\
       ds_users (snd (handle_request rt env req2 (snd out))) = ds_users (snd out)).
Proof.
  intros rt env req st user_id u Hm Ht Hin Hid out.
  destruct (delete_known_user rt env req st user_id u Hm Ht Hin Hid) as [Hs [Hc Hu]].
  fold out in Hs, Hc, Hu.
  split; [exact Hs|]. split; [exact Hc|]. split; [exact Hu|]. split; [|split].
  - intros v. rewrite Hu, filter_In, negb_true_iff, Z.eqb_neq. reflexivity.
  - subst out. rewrite handle_request_store.
    destruct (dispatch_request_store rt env req (snd (log_request st))) as [-> | ->];
      [reflexivity|].
    rewrite Ht. cbn [view_of]. rewrite user_detail_keeps_messages. reflexivity.
  - intros req2 Ht2 Hm2.
    unfold handle_request at 1 2, dispatch_request. rewrite Ht2.
    assert (Ha : allowed (UserDetail user_id) (method req2) = true)
      by (destruct Hm2 as [-> | ->]; reflexivity).
    rewrite Ha. cbn [negb view_of log_request snd].
    unfold user_detail, respond, bind, read. cbn [ds_users]. rewrite Hu, find_after_filter.
    destruct Hm2 as [-> | ->]; cbn; auto.
Qed.

Lemma delete_removes_every_match_witness :
  let st := run Sample.rt0 Sample.env0
              [Sample.post_user (Returns Sample.alice) Sample.t0;
               Sample.post_user (Returns Sample.bob) Sample.t0] data_store in
  let out := handle_request Sample.rt0 Sample.env0 (Sample.delete_user 1) st in
  status (fst out) = 200 /\
  map u_name (ds_users (snd out)) = [JStr "Bob"] /\
  status (fst (handle_request Sample.rt0 Sample.env0 (Sample.get_user 1) (snd out))) = 404.
Proof.
  intros st out.
  destruct (delete_removes_every_match Sample.rt0 Sample.env0 (Sample.delete_user 1) st 1
              (mkUser 1 (JStr "Alice") (JStr "a@x.com") Sample.t0)
              eq_refl eq_refl (or_introl eq_refl) eq_refl)
    as [Hs [_ [Hu [_ [_ Hnext]]]]].
  split; [exact Hs|]. split.
  - fold out in Hu. rewrite Hu. reflexivity.
  - apply (Hnext (Sample.get_user 1) eq_refl (or_introl eq_refl)).
Defined.

(* ------------------------------------------------------------------ *)
(** ** Which bodies create a user *)
(* ------------------------------------------------------------------ *)

(** An exception that leaves the POST branch is answered 400, 415 or 500. *)
Lemma handle_exception_code e :
  snd (handle_exception e) = 400 \/ snd (handle_exception e) = 415 \/
  snd (handle_exception e) = 500.
Proof. destruct e as [| | | | |[|]]; cbn; auto. Qed.

Lemma users_post_outcome rt req st :
  method req = POST ->
  creates_user req \/
  (exists r, users rt req st = (r, st) /\
             match r with
             | Ok (Some (_, c)) => c = 400
             | Ok None => False
             | Raise _ => True
             end).
Proof.
  intros Hm. unfold users, creates_user, request_get_json. rewrite Hm.
  destruct (get_json req) as [d|e]; [|right; eexists; split; [reflexivity|exact I]].
  destruct d as [|b|z|q|s|l|kv];
    try (right; unfold bind, lift; cbn;
         repeat case_scrutinee; eexists; split; reflexivity || exact I).
  destruct (Py.lookup "name" kv) as [n|] eqn:Hn;
    [destruct (Py.lookup "email" kv) as [e|] eqn:He|].
  - left. exists kv, n, e. auto.
  - right. unfold bind, lift.
    destruct (invalid_user_body (Returns (JObj kv))) as [d [Hd Hinv]].
    { right. right. exists kv. auto. }
    injection Hd as <-. rewrite Hinv. eexists. split; reflexivity.
  - right. unfold bind, lift.
    destruct (invalid_user_body (Returns (JObj kv))) as [d [Hd Hinv]].
    { right. left. exists kv. auto. }
    injection Hd as <-. rewrite Hinv. eexists. split; reflexivity.
Qed.

(** X5.  Over everything [get_json()] can do on a POST to /api/users: the
    answer is 201 exactly when it returns an object with both keys; in every
    other case (it aborts the request, or returns [None], a scalar, a
    string, a list, an object short of a key) the answer is 400, 415 or 500
    and the whole store, the visit counter apart, is left as it was. *)
Theorem user_created_iff_both_keys :
  forall rt env req st,
    method req = POST -> target req = Users ->
    let out := handle_request rt env req st in
    (status (fst out) = 201 <-> creates_user req) /\
    (~ creates_user req ->
     (status (fst out) = 400 \/ status (fst out) = 415 \/ status (fst out) = 500) /\
     ds_users (snd out) = ds_users st /\ ds_messages (snd out) = ds_messages st).
Proof.
  intros rt env req st Hm Ht out.
  assert (Hyes : creates_user req -> status (fst out) = 201).
  { intros [kv [n [e [Hj [Hn He]]]]]. subst out.
    rewrite (post_user_created rt env req st kv n e Hm Ht Hj Hn He). reflexivity. }
  assert (Hno : ~ creates_user req ->
                (status (fst out) = 400 \/ status (fst out) = 415
                 \/ status (fst out) = 500) /\
                ds_users (snd out) = ds_users st /\
                ds_messages (snd out) = ds_messages st).
  { intros Hnot. subst out. unfold handle_request, dispatch_request.
    rewrite Ht, Hm. cbn [allowed negb view_of].
    destruct (users_post_outcome rt req (snd (log_request st)) Hm)
      as [Hc | [r [-> Hr]]]; [contradiction|].
    destruct r as [[[b c]|]|e]; [subst c; cbn; auto | contradiction |].
    pose proof (handle_exception_code e) as Hcode.
    destruct (handle_exception e) as [b c]. cbn in *. auto. }
  split; [|exact Hno]. split; [|exact Hyes].
  intros H201.
  destruct (users_post_outcome rt req (snd (log_request st)) Hm) as [Hc|Hr]; [exact Hc|].
  exfalso. subst out. revert H201. unfold handle_request, dispatch_request.
  rewrite Ht, Hm. cbn [allowed negb view_of]. destruct Hr as [r [-> Hr]].
  destruct r as [[[b c]|]|e]; [subst c; cbn; discriminate | contradiction |].
  pose proof (handle_exception_code e) as Hcode.
  destruct (handle_exception e) as [b c]. cbn in *. lia.
Qed.

Lemma user_created_iff_both_keys_witness :
  let out := handle_request Sample.rt0 Sample.env0
               (Sample.post_user (Returns (JArr [JStr "name"; JStr "email"])) Sample.t0)
               data_store in
  (status (fst out) = 400 \/ status (fst out) = 415 \/ status (fst out) = 500) /\
  ds_users (snd out) = [] /\ ds_messages (snd out) = [].
Proof.
  apply (user_created_iff_both_keys Sample.rt0 Sample.env0
           (Sample.post_user (Returns (JArr [JStr "name"; JStr "email"])) Sample.t0)
           data_store eq_refl eq_refl).
  intros [kv [n [e [H _]]]]. discriminate H.
Defined.

(* ------------------------------------------------------------------ *)
(** ** Posting a message without content *)
(* ------------------------------------------------------------------ *)

(** X6.  A POST on /api/messages that passes the key check and for which
    [get_json()] returns [None] or an object without the key 'content' is
    answered 400 with the validation message and stores nothing, even when
    the body carries an 'author'. *)
Theorem message_without_content_rejected :
  forall rt env req st,
    method req = POST -> target req = Messages ->
    x_api_key req = Some (valid_key env) ->
    get_json req = Returns JNull \/ lacks_key "content" (get_json req) ->
    let out := handle_request rt env req st in
    status (fst out) = 400 /\ content (fst out) = content_required /\
    ds_messages (snd out) = ds_messages st /\ ds_users (snd out) = ds_users st.
Proof.
  intros rt env req st Hm Ht Hk Hbad out. subst out.
  assert (Hinv : exists d, get_json req = Returns d /\ invalid d ["content"] = Ok true).
  { destruct Hbad as [-> | [kv [-> H]]]; eexists; (split; [reflexivity|]);
      [reflexivity|].
    unfold invalid. destruct (negb (Py.truthy (JObj kv))); auto.
    cbn [missing_any Py.contains rbind]. rewrite H. reflexivity. }
  destruct Hinv as [d [Hd Hinv]].
  unfold handle_request, dispatch_request. rewrite Ht, Hm.
  cbn [allowed negb view_of log_request snd]. unfold messages, require_api_key.
  rewrite (good_key_passes _ _ Hk). unfold messages_view. rewrite Hm.
  unfold request_get_json. rewrite Hd.
  unfold bind, lift. rewrite Hinv. cbn. auto.
Qed.

Lemma message_without_content_rejected_witness :
  let req := Sample.post_message Sample.key
               (Returns (JObj [("author", JStr "Bob")])) Sample.t0 in
  let out := handle_request Sample.rt0 Sample.env0 req data_store in
  status (fst out) = 400 /\ content (fst out) = content_required /\
  ds_messages (snd out) = [] /\ ds_users (snd out) = [].
Proof.
  intros req.
  apply (message_without_content_rejected Sample.rt0 Sample.env0 req data_store
           eq_refl eq_refl eq_refl).
  right. exists [("author", JStr "Bob")]. split; reflexivity.
Defined.

(* ------------------------------------------------------------------ *)
(** ** 401 means a wrong key, and only that *)
(* ------------------------------------------------------------------ *)

Lemma messages_view_status rt req st b c st' :
  messages_view rt req st = (Ok (Some (b, c)), st') ->
  c = 200 \/ c = 201 \/ c = 400.
Proof.
  unfold messages_view. unfold respond, bind, ret, lift, read, write.
  repeat case_scrutinee; intros H; try discriminate H;
    injection H as _ <- _; auto.
Qed.

Lemma good_or_bad_key env req :
  x_api_key req = Some (valid_key env) \/ bad_key env req.
Proof.
  unfold bad_key. destruct (x_api_key req) as [k|]; [|auto].
  destruct (PyStrFacts.eqb_spec k (valid_key env)) as [->|Hne]; [auto|].
  right. right. exists k. auto.
Qed.

(** X7.  On GET and POST /api/messages the status 401 is sent exactly when
    the X-API-Key header is absent or differs from the configured secret:
    with the right key the answer is never 401. *)
Theorem unauthorized_iff_bad_key :
  forall rt env req st,
    target req = Messages -> method req = GET \/ method req = POST ->
    (status (fst (handle_request rt env req st)) = 401 <-> bad_key env req).
Proof.
  intros rt env req st Ht Hm. split.
  - intros H401. destruct (good_or_bad_key env req) as [Hk|Hbad]; [|exact Hbad].
    exfalso. revert H401. unfold handle_request, dispatch_request. rewrite Ht.
    assert (Ha : allowed Messages (method req) = true)
      by (destruct Hm as [-> | ->]; reflexivity).
    rewrite Ha. cbn [negb view_of]. unfold messages, require_api_key.
    rewrite (good_key_passes _ _ Hk).
    destruct (messages_view rt req (snd (log_request st))) as [[[[b c]|]|e] st'] eqn:Hv.
    + apply messages_view_status in Hv.
      destruct Hm as [-> | ->]; cbn; intros ->; decompose [or] Hv; discriminate.
    + destruct Hm as [-> | ->]; cbn; discriminate.
    + pose proof (handle_exception_code e) as Hcode.
      destruct (handle_exception e) as [b c].
      destruct Hm as [-> | ->]; cbn in *; intros ->; lia.
  - intros Hbad. unfold handle_request, dispatch_request. rewrite Ht.
    destruct Hm as [-> | ->]; cbn [allowed negb view_of]; unfold messages,
      require_api_key; rewrite (bad_key_differs _ _ Hbad); reflexivity.
Qed.

Lemma unauthorized_iff_bad_key_witness :
  status (fst (handle_request Sample.rt0 Sample.env0 (Sample.get_messages Sample.key)
                 data_store)) <> 401 /\
  status (fst (handle_request Sample.rt0 Sample.env0 (Sample.get_messages None)
                 data_store)) = 401.
Proof.
  split.
  - intros H.
    apply (unauthorized_iff_bad_key Sample.rt0 Sample.env0
             (Sample.get_messages Sample.key)
             data_store eq_refl (or_introl eq_refl)) in H.
    destruct H as [H | [k [H Hne]]]; [discriminate H|].
    injection H as <-. apply Hne. reflexivity.
  - apply (unauthorized_iff_bad_key Sample.rt0 Sample.env0 (Sample.get_messages None)
             data_store eq_refl (or_introl eq_refl)).
    left. reflexivity.
Defined.

(* ------------------------------------------------------------------ *)
(** ** The users page *)
(* ------------------------------------------------------------------ *)

Lemma render_user_card_listed rt u c :
  render_user_card rt u = Ok c -> user_listed u c.
Proof.
  unfold render_user_card. destruct (initial rt (u_name u)); cbn [rbind];
    [|discriminate].
  intros H. injection H as <-. repeat split.
Qed.

(** X8.  When every stored name is a non-empty string, GET /api/users hands
    the engine the source of the users page: the total is the number of
    stored users and the cards show them in insertion order (oldest first,
    the opposite of the messages page).  The answer is that page with 200
    when the engine produces it and 500 when it raises on the source, into
    which names and emails are spliced; nothing is written. *)
Theorem users_listed_in_insertion_order :
  forall rt env req st,
    method req = GET -> target req = Users ->
    Forall (fun u => nonempty_str (u_name u)) (ds_users st) ->
    let out := handle_request rt env req st in
    exists cards,
      Forall2 user_listed (ds_users st) cards /\
      rendered rt (UsersPage (Py.len (ds_users st)) cards) (fst out) /\
      ds_users (snd out) = ds_users st /\ ds_messages (snd out) = ds_messages st.
Proof.
  intros rt env req st Hm Ht Hnames out. subst out.
  assert (Hall : Forall (fun u => exists c, render_user_card rt u = Ok c) (ds_users st)).
  { revert Hnames. apply Forall_impl. intros u Hne.
    destruct (initial_nonempty_str rt _ Hne) as [a Ha].
    unfold render_user_card. rewrite Ha. eexists. reflexivity. }
  destruct (comprehension_total _ _ Hall) as [cards [Hcards Hshown]].
  exists cards. split.
  - revert Hshown. apply Forall2_impl. apply render_user_card_listed.
  - destruct (handle_respond rt env req st
                (UsersPage (Py.len (ds_users st)) cards) Hm) as [H1 H2].
    + rewrite Ht. discriminate.
    + rewrite Ht. cbn [view_of]. unfold users. rewrite Hm.
      unfold bind, read, lift. cbn [log_request snd ds_users].
      rewrite Hcards. reflexivity.
    + split; [exact H1|]. rewrite H2. split; reflexivity.
Qed.

Lemma users_listed_in_insertion_order_witness :
  let st := run Sample.rt0 Sample.env0
              [Sample.post_user (Returns Sample.alice) Sample.t0;
               Sample.post_user (Returns Sample.bob) Sample.t1] data_store in
  let out := handle_request Sample.rt0 Sample.env0 Sample.get_users st in
  exists cards,
    Forall2 user_listed (ds_users st) cards /\
    rendered Sample.rt0 (UsersPage (Py.len (ds_users st)) cards) (fst out) /\
    ds_users (snd out) = ds_users st /\ ds_messages (snd out) = ds_messages st.
Proof.
  intros st.
  apply (users_listed_in_insertion_order Sample.rt0 Sample.env0 Sample.get_users st
           eq_refl eq_refl).
  repeat constructor; eexists; eexists; reflexivity.
Defined.

(** X9.  One stored user whose name is the empty string is enough to break
    the users page: the avatar expression [user['name'][0]] raises inside
    the comprehension and GET /api/users is answered 500, whatever else the
    store holds.  Such a record is one the create handler accepts. *)
Theorem users_page_fails_on_empty_name :
  forall rt env req st u,
    method req = GET -> target req = Users ->
    In u (ds_users st) -> u_name u = JStr "" ->
    let out := handle_request rt env req st in
    status (fst out) = 500 /\ content (fst out) = fst internal_error /\
    ds_users (snd out) = ds_users st.
Proof.
  intros rt env req st u Hm Ht Hin Hname out. subst out.
  assert (Hu : render_user_card rt u = Raise IndexError)
    by (unfold render_user_card; rewrite Hname; reflexivity).
  destruct (comprehension_raises (render_user_card rt) _ u _ Hin Hu) as [e' He].
  assert (He' : e' = IndexError \/ e' = TypeError \/ e' = AttributeError
                \/ e' = KeyError).
  { clear - He. revert e' He. induction (ds_users st) as [|x l IH]; intros e' He;
      [discriminate|]. cbn [comprehension] in He.
    destruct (render_user_card rt x) as [c|e0] eqn:Hx; cbn [rbind] in He.
    - destruct (comprehension (render_user_card rt) l) as [cs|e1]; cbn [rbind] in He;
        [discriminate|]. injection He as <-. apply IH. reflexivity.
    - injection He as <-. revert Hx. unfold render_user_card, initial, Py.first, Py.upper.
      destruct (u_name x) as [| | | |[[|c s]]|[|v l']|]; cbn [rbind];
        try (intros H; injection H as <-; auto);
        try discriminate.
      destruct v; cbn [rbind]; try discriminate; intros H; injection H as <-; auto. }
  unfold handle_request, dispatch_request. rewrite Ht, Hm.
  cbn [allowed negb view_of log_request snd]. unfold users. rewrite Hm.
  unfold bind, read, lift. cbn [ds_users]. rewrite He.
  decompose [or] He'; subst e'; cbn; auto.
Qed.

Lemma users_page_fails_on_empty_name_witness :
  let st := run Sample.rt0 Sample.env0
              [Sample.post_user (Returns Sample.alice) Sample.t0;
               Sample.post_user (Returns (JObj [("name", JStr ""); ("email", JStr "")]))
                 Sample.t1] data_store in
  let out := handle_request Sample.rt0 Sample.env0 Sample.get_users st in
  status (fst out) = 500 /\ content (fst out) = fst internal_error /\
  ds_users (snd out) = ds_users st.
Proof.
  intros st.
  apply (users_page_fails_on_empty_name Sample.rt0 Sample.env0 Sample.get_users st
           (mkUser 2 (JStr "") (JStr "") Sample.t1) eq_refl eq_refl).
  - right. left. reflexivity.
  - reflexivity.
Defined.

(** An exception that ends a comprehension was raised by its element
    expression. *)
Lemma comprehension_raise_from {A B} (f : A -> result B) (l : list A) e :
  comprehension f l = Raise e -> exists a, In a l /\ f a = Raise e.
Proof.
  induction l as [|x l IH]; cbn [comprehension]; [discriminate|].
  destruct (f x) as [b|e0] eqn:Hx; cbn [rbind].
  - destruct (comprehension f l) as [bs|e1]; cbn [rbind]; [discriminate|].
    intros H. injection H as <-. destruct (IH eq_refl) as [a [Hin Ha]].
    exists a. split; [right; exact Hin | exact Ha].
  - intros H. injection H as <-. exists x. split; [left; reflexivity | exact Hx].
Qed.

(** The avatar expression raises no HTTP error. *)
Lemma initial_raises_500 rt x e :
  initial rt x = Raise e -> handle_exception e = internal_error.
Proof.
  unfold initial, Py.first, Py.upper.
  destruct x as [| | | |[[|c s]]|[|v l]|]; cbn [rbind];
    try (intros H; injection H as <-; reflexivity); try discriminate.
  destruct v; cbn [rbind]; try discriminate; intros H; injection H as <-; reflexivity.
Qed.

(** X10.  The messages page breaks likewise: once a stored message has the
    empty string as author, every GET on /api/messages with the right key
    is answered 500; since messages are never removed, the page does not
    come back. *)
Theorem messages_page_fails_on_empty_author :
  forall rt env req st m reqs,
    method req = GET -> target req = Messages ->
    x_api_key req = Some (valid_key env) ->
    In m (ds_messages st) -> m_author m = JStr "" ->
    status (fst (handle_request rt env req (run rt env reqs st))) = 500.
Proof.
  intros rt env req st m reqs Hm Ht Hk Hin Hauthor.
  destruct (messages_append_only_run rt env reqs st) as [l Hl].
  assert (Hin' : In m (rev (ds_messages (run rt env reqs st)))).
  { apply in_rev. rewrite rev_involutive, Hl. apply in_or_app. left. exact Hin. }
  assert (Hr : render_message_card rt m = Raise IndexError)
    by (unfold render_message_card; rewrite Hauthor; reflexivity).
  destruct (comprehension_raises (render_message_card rt) _ m _ Hin' Hr) as [e' He].
  assert (He' : handle_exception e' = internal_error).
  { destruct (comprehension_raise_from _ _ _ He) as [a [_ Ha]].
    unfold render_message_card in Ha.
    destruct (initial rt (m_author a)) as [s|e0] eqn:Hi; cbn [rbind] in Ha;
      [discriminate|]. injection Ha as <-. apply (initial_raises_500 rt _ _ Hi). }
  unfold handle_request, dispatch_request. rewrite Ht, Hm.
  cbn [allowed negb view_of log_request snd]. unfold messages, require_api_key.
  rewrite (good_key_passes _ _ Hk). unfold messages_view. rewrite Hm.
  unfold bind, read, lift. cbn [ds_messages]. rewrite He, He'. reflexivity.
Qed.

Lemma messages_page_fails_on_empty_author_witness :
  let st := run Sample.rt0 Sample.env0
              [Sample.post_message Sample.key
                 (Returns (JObj [("content", JStr "hi"); ("author", JStr "")]))
                 Sample.t0] data_store in
  status (fst (handle_request Sample.rt0 Sample.env0 (Sample.get_messages Sample.key)
                 (run Sample.rt0 Sample.env0
                    [Sample.post_message Sample.key
                       (Returns (JObj [("content", JStr "later")])) Sample.t1] st)))
  = 500.
Proof.
  intros st.
  apply (messages_page_fails_on_empty_author Sample.rt0 Sample.env0
           (Sample.get_messages Sample.key) st
           (mkMessage 1 (JStr "hi") (JStr "") Sample.t0)
           [Sample.post_message Sample.key
              (Returns (JObj [("content", JStr "later")])) Sample.t1]
           eq_refl eq_refl eq_refl).
  - left. reflexivity.
  - reflexivity.
Defined.

(* ------------------------------------------------------------------ *)
(** ** The detail page *)
(* ------------------------------------------------------------------ *)

Lemma find_first_match user_id pre u post :
  Forall (fun v => u_id v <> user_id) pre -> u_id u = user_id ->
  find (fun v => u_id v =? user_id) (pre ++ u :: post) = Some u.
Proof.
  intros Hpre Hu. induction Hpre as [|v pre Hv _ IH]; cbn [app find].
  - rewrite (proj2 (Z.eqb_eq _ _) Hu). reflexivity.
  - rewrite (proj2 (Z.eqb_neq _ _) Hv). exact IH.
Qed.

Lemma get_user_page rt env req st user_id u c s e :
  method req = GET -> target req = UserDetail user_id ->
  find (fun v => u_id v =? user_id) (ds_users st) = Some u ->
  u_name u = JStr (Str (c :: s)) -> u_email u = JStr e ->
  rendered rt (UserDetailPage (str_upper rt (Str [c])) (Str (c :: s)) e (u_id u)
                              (shown_time (u_created_at u)))
           (fst (handle_request rt env req st)) /\
  snd (handle_request rt env req st) = snd (log_request st).
Proof.
  intros Hm Ht Hfind Hname Hemail.
  apply (handle_respond rt env req st _ Hm); [rewrite Ht; discriminate|].
  rewrite Ht. cbn [view_of]. unfold user_detail, bind, read.
  cbn [log_request snd ds_users]. rewrite Hfind, Hm. unfold lift, initial.
  rewrite Hname, Hemail. reflexivity.
Qed.

(** X11.  GET /api/users/{id} builds the detail page from the first stored
    user that carries the id (ids can repeat, later holders are not shown),
    provided its name is a non-empty string and its email a string: the
    avatar is the upper-cased first character of the name.  The answer is
    that page with 200 when the engine produces it and 500 when it raises
    on the source, into which name and email are spliced; nothing is
    written. *)
Theorem user_detail_shows_first_match :
  forall rt env req st user_id pre u post c s e,
    method req = GET -> target req = UserDetail user_id ->
    ds_users st = pre ++ u :: post ->
    Forall (fun v => u_id v <> user_id) pre -> u_id u = user_id ->
    u_name u = JStr (Str (c :: s)) -> u_email u = JStr e ->
    let out := handle_request rt env req st in
    rendered rt (UserDetailPage (str_upper rt (Str [c])) (Str (c :: s)) e user_id
                                (shown_time (u_created_at u)))
             (fst out) /\
    ds_users (snd out) = ds_users st /\ ds_messages (snd out) = ds_messages st.
Proof.
  intros rt env req st user_id pre u post c s e Hm Ht Hl Hpre Hu Hname Hemail out.
  subst out.
  destruct (get_user_page rt env req st user_id u c s e Hm Ht) as [H1 H2]; auto.
  - rewrite Hl. apply find_first_match; assumption.
  - rewrite Hu in H1. split; [exact H1|]. rewrite H2. split; reflexivity.
Qed.

Lemma user_detail_shows_first_match_witness :
  let st := run Sample.rt0 Sample.env0
              [Sample.post_user (Returns Sample.alice) Sample.t0;
               Sample.post_user (Returns Sample.bob) Sample.t0;
               Sample.delete_user 1;
               Sample.post_user (Returns Sample.alice2) Sample.t1] data_store in
  let out := handle_request Sample.rt0 Sample.env0 (Sample.get_user 2) st in
  rendered Sample.rt0
           (UserDetailPage "B" "Bob" "b@x.com" 2 "2024-01-01 10:00:00") (fst out) /\
  ds_users (snd out) = ds_users st /\ ds_messages (snd out) = ds_messages st.
Proof.
  intros st.
  apply (user_detail_shows_first_match Sample.rt0 Sample.env0 (Sample.get_user 2) st 2
           [] (mkUser 2 (JStr "Bob") (JStr "b@x.com") Sample.t0)
           [mkUser 2 (JStr "alice2") (JStr "a2@x.com") Sample.t1]
           66%N (PyStr.codepoints "ob") "b@x.com" eq_refl eq_refl eq_refl);
    [constructor | reflexivity | reflexivity | reflexivity].
Defined.

(** X12.  Create, then read: on a store where no user holds the id the
    creation is about to assign, a user created with a non-empty string
    name and a string email is the one from which a GET on the returned id
    builds the detail page; the answer is that page with 200 when the
    engine produces it and 500 when it raises on the source. *)
Theorem created_user_can_be_read :
  forall rt env req st kv c s e get,
    method req = POST -> target req = Users ->
    get_json req = Returns (JObj kv) ->
    Py.lookup "name" kv = Some (JStr (Str (c :: s))) ->
    Py.lookup "email" kv = Some (JStr e) ->
    unknown_id (Py.len (ds_users st) + 1) st ->
    method get = GET -> target get = UserDetail (Py.len (ds_users st) + 1) ->
    let st' := snd (handle_request rt env req st) in
    rendered rt (UserDetailPage (str_upper rt (Str [c])) (Str (c :: s)) e
                                (Py.len (ds_users st) + 1)
                                (shown_time (utcnow req)))
             (fst (handle_request rt env get st')).
Proof.
  intros rt env req st kv c s e get Hm Ht Hj Hn He Hun Hgm Hgt st'. subst st'.
  rewrite (post_user_created rt env req st kv _ _ Hm Ht Hj Hn He). cbn [snd].
  set (u := mkUser (Py.len (ds_users st) + 1) (JStr (Str (c :: s))) (JStr e) (utcnow req)).
  apply (get_user_page rt env get _ (Py.len (ds_users st) + 1) u c s e Hgm Hgt);
    [| reflexivity | reflexivity].
  cbn [ds_users]. apply find_first_match; [|reflexivity].
  apply Forall_forall. exact Hun.
Qed.

Lemma created_user_can_be_read_witness :
  let req := Sample.post_user (Returns Sample.alice) Sample.t0 in
  let st' := snd (handle_request Sample.rt0 Sample.env0 req data_store) in
  rendered Sample.rt0
           (UserDetailPage "A" "Alice" "a@x.com" 1 "2024-01-01 10:00:00")
           (fst (handle_request Sample.rt0 Sample.env0 (Sample.get_user 1) st')).
Proof.
  intros req.
  apply (created_user_can_be_read Sample.rt0 Sample.env0 req data_store
           [("name", JStr "Alice"); ("email", JStr "a@x.com")]
           65%N (PyStr.codepoints "lice") "a@x.com" (Sample.get_user 1)
           eq_refl eq_refl eq_refl eq_refl eq_refl);
    [intros u [] | reflexivity | reflexivity].
Defined.
(* ------------------------------------------------------------------ *)
(** ** What the user ids still satisfy *)
(* ------------------------------------------------------------------ *)

Lemma nth_error_filter {A} (p : A -> bool) (l : list A) : forall i a,
  nth_error (filter p l) i = Some a ->
  exists j, (i <= j)%nat /\ nth_error l j = Some a.
Proof.
  induction l as [|x l IH]; intros i a; cbn [filter].
  - destruct i; discriminate.
  - destruct (p x).
    + destruct i as [|i]; cbn [nth_error].
      * intros H. exists 0%nat. split; [lia | exact H].
      * intros H. destruct (IH i a H) as [j [Hij Hj]].
        exists (S j). split; [lia | exact Hj].
    + intros H. destruct (IH i a H) as [j [Hij Hj]].
      exists (S j). split; [lia | exact Hj].
Qed.

Lemma effect_id_bounds n st st' :
  effect st st' -> id_bounds n (ds_users st) -> id_bounds (S n) (ds_users st').
Proof.
  unfold id_bounds, ids_cover_positions.
  intros Heff [Hpos [Hlen Hmax]].
  assert (Hmax' : Forall (fun u => u_id u <= Z.of_nat (S n)) (ds_users st))
    by (revert Hmax; apply Forall_impl; intros; lia).
  destruct Heff as [|u Hu|m Hm|user_id]; cbn [ds_users].
  - repeat split; [exact Hpos | lia | exact Hmax'].
  - unfold Py.len in Hu. repeat split.
    + intros i v Hi.
      destruct (Nat.lt_ge_cases i (List.length (ds_users st))) as [Hlt|Hge].
      * rewrite nth_error_app1 in Hi by exact Hlt. apply (Hpos i v Hi).
      * rewrite nth_error_app2 in Hi by exact Hge.
        destruct (i - List.length (ds_users st))%nat as [|k] eqn:Hk;
          [|destruct k; discriminate Hi].
        injection Hi as <-. lia.
    + rewrite length_app. cbn [List.length]. lia.
    + apply Forall_app. split; [exact Hmax'|]. constructor; [lia|constructor].
  - repeat split; [exact Hpos | lia | exact Hmax'].
  - repeat split.
    + intros i v Hi. destruct (nth_error_filter _ _ _ _ Hi) as [j [Hij Hj]].
      specialize (Hpos j v Hj). lia.
    + pose proof (filter_length_le (fun u => negb (u_id u =? user_id)) (ds_users st)).
      lia.
    + apply Forall_forall. intros v Hv. apply filter_In in Hv.
      rewrite Forall_forall in Hmax'. apply Hmax'. apply Hv.
Qed.

Lemma run_id_bounds rt env reqs :
  id_bounds (List.length reqs) (ds_users (run rt env reqs data_store)).
Proof.
  induction reqs as [|req reqs IH] using rev_ind.
  - repeat split; [intros [|i] u H; discriminate H | cbn; lia | constructor].
  - rewrite run_snoc, length_app, Nat.add_1_r, handle_request_store.
    apply (effect_id_bounds _ _ _ (dispatch_request_effect rt env req _)).
    exact IH.
Qed.

(** X13.  After any sequence of requests on the initial store, the id of a stored
    user is at least its position in the list (counted from one) and at
    most the number of requests served; in particular every id is positive,
    so no reachable store answers a GET or DELETE on /api/users/0 other than
    by 404. *)
Theorem user_id_bounds :
  forall rt env reqs,
    let st := run rt env reqs data_store in
    (forall i u, nth_error (ds_users st) i = Some u ->
                 Z.of_nat i + 1 <= u_id u <= Py.len reqs) /\
    (forall req, target req = UserDetail 0 ->
                 method req = GET \/ method req = DELETE ->
                 status (fst (handle_request rt env req st)) = 404).
Proof.
  intros rt env reqs st. subst st.
  destruct (run_id_bounds rt env reqs) as [Hpos [_ Hmax]].
  split.
  - intros i u Hi. split; [apply (Hpos i u Hi)|]. rewrite Forall_forall in Hmax.
    apply Hmax. apply (nth_error_In _ _ Hi).
  - intros req Ht Hm.
    assert (Hun : find (fun v => u_id v =? 0) (ds_users (run rt env reqs data_store)) = None).
    { apply find_unknown_id. intros v Hv. apply In_nth_error in Hv.
      destruct Hv as [j Hj]. specialize (Hpos j v Hj). lia. }
    unfold handle_request, dispatch_request. rewrite Ht.
    assert (Ha : allowed (UserDetail 0) (method req) = true)
      by (destruct Hm as [-> | ->]; reflexivity).
    rewrite Ha. cbn [negb view_of log_request snd].
    unfold user_detail, respond, bind, read. cbn [ds_users]. rewrite Hun.
    destruct Hm as [-> | ->]; reflexivity.
Qed.

Lemma user_id_bounds_witness :
  let reqs := [Sample.post_user (Returns Sample.alice) Sample.t0;
               Sample.post_user (Returns Sample.bob) Sample.t0;
               Sample.delete_user 1] in
  let u := mkUser 2 (JStr "Bob") (JStr "b@x.com") Sample.t0 in
  1 <= u_id u <= 3 /\
  status (fst (handle_request Sample.rt0 Sample.env0 (Sample.get_user 0)
                 (run Sample.rt0 Sample.env0 reqs data_store))) = 404.
Proof.
  intros reqs u.
  destruct (user_id_bounds Sample.rt0 Sample.env0 reqs) as [Hb H0].
  split; [apply (Hb 0%nat u eq_refl)|].
  apply (H0 (Sample.get_user 0) eq_refl (or_introl eq_refl)).
Defined.

Lemma users_grow_without_delete rt env req st :
  method req <> DELETE ->
  let st' := snd (handle_request rt env req st) in
  ds_users st' = ds_users st \/
  exists u, u_id u = Py.len (ds_users st) + 1 /\ ds_users st' = ds_users st ++ [u].
Proof.
  intros Hm st'. subst st'. rewrite handle_request_store.
  set (st1 := snd (log_request st)).
  change (ds_users st) with (ds_users st1). generalize st1 as s. clear st st1. intros s.
  destruct (dispatch_request_store rt env req s) as [-> | ->]; [auto|].
  destruct (target req) eqn:Ht; cbn [view_of]; auto.
  - rewrite health_check_keeps_store. auto.
  - rewrite get_stats_keeps_store. auto.
  - unfold users. run_view; auto; right; eexists (mkUser _ _ _ _); split; reflexivity.
  - destruct (user_detail_writes_on_delete rt user_id req s) as [H|H]; [contradiction|auto].
  - unfold messages, require_api_key. destruct (key_differs _ _); cbn [ret snd]; auto.
    left. apply messages_view_keeps_users.
  - rewrite search_keeps_store. auto.
Qed.

(** X14.  As long as no DELETE has been served, user ids behave like message
    ids: after the requests the stored ids are 1, 2, ..., n in insertion
    order, all distinct. *)
Theorem user_ids_without_delete :
  forall rt env reqs,
    Forall (fun req => method req <> DELETE) reqs ->
    let st := run rt env reqs data_store in
    user_ids st = one_to (List.length (ds_users st)) /\ NoDup (user_ids st).
Proof.
  intros rt env reqs Hall st.
  assert (H : user_ids st = one_to (List.length (ds_users st))).
  { subst st. induction reqs as [|req reqs IH] using rev_ind; [reflexivity|].
    apply Forall_app in Hall. destruct Hall as [Hreqs Hreq].
    inversion Hreq as [|? ? Hm _]; subst.
    specialize (IH Hreqs). rewrite run_snoc. unfold user_ids in *.
    destruct (users_grow_without_delete rt env req (run rt env reqs data_store) Hm)
      as [-> | [u [Hu ->]]]; [exact IH|].
    rewrite map_app, length_app, IH. cbn [map List.length].
    rewrite Nat.add_1_r, one_to_snoc, Hu. reflexivity. }
  split; [exact H|]. rewrite H. apply one_to_NoDup.
Qed.

Lemma user_ids_without_delete_witness :
  let reqs := [Sample.post_user (Returns Sample.alice) Sample.t0;
               Sample.get_search (Some "ali");
               Sample.post_user (Returns Sample.bob) Sample.t1] in
  let st := run Sample.rt0 Sample.env0 reqs data_store in
  user_ids st = one_to (List.length (ds_users st)) /\ NoDup (user_ids st).
Proof.
  intros reqs.
  apply (user_ids_without_delete Sample.rt0 Sample.env0 reqs).
  repeat constructor; discriminate.
Defined.

(* ------------------------------------------------------------------ *)
(** ** The counts on the statistics and overview pages *)
(* ------------------------------------------------------------------ *)

(** X15.  The statistics page and the overview page are built from the same
    snapshot: the current numbers of users and messages and a visit count
    that already includes the request being answered.  Served after [reqs]
    on the initial store, both carry the visit count [len reqs + 1].  The
    overview is answered 200; the statistics page, into which the clock
    reading and ENVIRONMENT are spliced, is answered 200 when the engine
    produces it and 500 when it raises.  Neither writes a list. *)
Theorem pages_count_the_current_request :
  forall rt env reqs req,
    method req = GET ->
    let st := run rt env reqs data_store in
    let out := handle_request rt env req st in
    (target req = Stats ->
     rendered rt (StatsPage (Py.len (ds_users st)) (Py.len (ds_messages st))
                            (Py.len reqs + 1) (utcnow_strftime req)
                            (environ_get (ENVIRONMENT env) "development"))
              (fst out)) /\
    (target req = Home ->
     status (fst out) = 200 /\
     content (fst out) =
       Html (HomePage (Py.len reqs + 1) (Py.len (ds_users st))
                      (Py.len (ds_messages st)))) /\
    (target req = Stats \/ target req = Home ->
     ds_users (snd out) = ds_users st /\ ds_messages (snd out) = ds_messages st).
Proof.
  intros rt env reqs req Hm st out. subst out.
  assert (Hv : ds_visits st = Py.len reqs)
    by (subst st; rewrite run_visits; reflexivity).
  split; [|split].
  - intros Ht.
    apply (handle_respond rt env req st _ Hm); [rewrite Ht; discriminate|].
    rewrite Ht. cbn [view_of]. unfold get_stats, bind, read.
    cbn [log_request snd ds_users ds_messages ds_visits]. rewrite Hv. reflexivity.
  - intros Ht. unfold handle_request, dispatch_request. rewrite Hm, Ht.
    cbn. rewrite Hv. auto.
  - intros Ht. rewrite handle_request_store.
    destruct (dispatch_request_store rt env req (snd (log_request st))) as [-> | ->];
      [split; reflexivity|].
    destruct Ht as [-> | ->]; cbn [view_of].
    + rewrite get_stats_keeps_store. split; reflexivity.
    + rewrite home_keeps_store. split; reflexivity.
Qed.

Lemma pages_count_the_current_request_witness :
  let reqs := [Sample.post_user (Returns Sample.alice) Sample.t0;
               Sample.get_search None] in
  let out := handle_request Sample.rt0 Sample.env0 Sample.get_stats
               (run Sample.rt0 Sample.env0 reqs data_store) in
  rendered Sample.rt0 (StatsPage 1 0 3 "2024-01-01 10:00:05" "development") (fst out).
Proof.
  intros reqs.
  apply (pages_count_the_current_request Sample.rt0 Sample.env0 reqs
           Sample.get_stats eq_refl).
  reflexivity.
Defined.
